(** * neptune/population_tools.py: record extraction and table assembly

    A shallow embedding of the population tools of the [neptune] package:
    the gzip/JSON loader, the per-creature field extractors, the
    population-level list extractors and the assembly of two-column tables
    over a directory and over a set of directories.

    Python values are embedded as the JSON value universe that [json.load]
    produces, exceptions as an error result, and the two effects the code
    has (reading the file system, printing to standard output) as a reader
    of a [World] and a log of printed objects.  The [World] also holds the
    one thing pandas decides for the module: how a value is stored in a
    column. *)

From Stdlib Require Import String Ascii List ZArith Bool Arith Lia.
From Stdlib Require Import Floats.
Import ListNotations.
Local Open Scope string_scope.
Local Open Scope list_scope.
Set Warnings "-register-all".

(** ** Python values *)

(** The values [json.load] returns: [None], [bool], [int], [float], [str],
    [list] and [dict].  A [dict] keeps its insertion order (iteration over
    a dict yields the keys in that order), so it is an association list;
    lookup takes the first binding of a key. *)
Inductive json : Type :=
| JNull : json
| JBool : bool -> json
| JInt : Z -> json
| JFloat : float -> json
| JStr : string -> json
| JArr : list json -> json
| JObj : list (string * json) -> json.

Definition dict := list (string * json).

(** Python's [None]. *)
Definition None_ : json := JNull.

(** ** Exceptions *)

(** The exception classes the module's own code raises.  All of them derive
    from [Exception]. *)
Inductive exn : Type :=
| KeyError (key : string)
| TypeError
| NameError (name : string)
| StopIteration
| RuntimeError
| ValueError.

Inductive result (A : Type) : Type :=
| Ok : A -> result A
| Raise : exn -> result A.
Arguments Ok {A} _.
Arguments Raise {A} _.

Definition rbind {A B} (r : result A) (k : A -> result B) : result B :=
  match r with
  | Ok a => k a
  | Raise e => Raise e
  end.

Declare Scope result_scope.
Delimit Scope result_scope with result.
Notation "x <-? c ; k" := (rbind c (fun x => k))
  (at level 61, c at next level, right associativity) : result_scope.

(** ** Dictionary and container operations *)

Fixpoint dict_get (k : string) (d : dict) : option json :=
  match d with
  | [] => None
  | (k', v) :: d' => if String.eqb k k' then Some v else dict_get k d'
  end.

(** [k in s] for two strings: substring test. *)
Fixpoint is_substring (k s : string) : bool :=
  String.prefix k s ||
  match s with
  | EmptyString => false
  | String _ s' => is_substring k s'
  end.

Definition is_str (k : string) (v : json) : bool :=
  match v with
  | JStr s => String.eqb k s
  | _ => false
  end.

(** [k in container] for a string [k]: key membership in a dict, element
    membership in a list, substring in a string; the other values are not
    iterable. *)
Definition py_in (k : string) (container : json) : result bool :=
  match container with
  | JObj d => Ok (match dict_get k d with Some _ => true | None => false end)
  | JArr l => Ok (existsb (is_str k) l)
  | JStr s => Ok (is_substring k s)
  | JNull | JBool _ | JInt _ | JFloat _ => Raise TypeError
  end.

(** [container[k]] for a string [k]: a dict raises [KeyError] on a missing
    key; a list or a string wants an integer index; the other values are not
    subscriptable. *)
Definition py_getitem (container : json) (k : string) : result json :=
  match container with
  | JObj d =>
      match dict_get k d with
      | Some v => Ok v
      | None => Raise (KeyError k)
      end
  | JArr _ | JStr _ | JNull | JBool _ | JInt _ | JFloat _ => Raise TypeError
  end.

(** The elements a [for] loop sees: the items of a list, the keys of a dict,
    the one-character strings of a string. *)
Fixpoint chars (s : string) : list json :=
  match s with
  | EmptyString => []
  | String c s' => JStr (String c EmptyString) :: chars s'
  end.

Definition py_iter (v : json) : result (list json) :=
  match v with
  | JArr l => Ok l
  | JObj d => Ok (map (fun kv => JStr (fst kv)) d)
  | JStr s => Ok (chars s)
  | JNull | JBool _ | JInt _ | JFloat _ => Raise TypeError
  end.

(** ** Field extractors *)

Local Open Scope result_scope.

(** [creature['fitness']['cached_scalar'] if 'fitness' in creature and
    'cached_scalar' in creature['fitness'] else None] *)
Definition fitness_of_creature (creature : json) : result json :=
  has_fitness <-? py_in "fitness" creature ;
  if has_fitness then
    fitness <-? py_getitem creature "fitness" ;
    has_scalar <-? py_in "cached_scalar" fitness ;
    if has_scalar then
      fitness' <-? py_getitem creature "fitness" ;
      py_getitem fitness' "cached_scalar"
    else Ok None_
  else Ok None_.

Definition generation_of_creature (creature : json) : result json :=
  py_getitem creature "generation".

Definition mem_write_ratio_of_creature (creature : json) : result json :=
  fitness <-? py_getitem creature "fitness" ;
  scores <-? py_getitem fitness "scores" ;
  py_getitem scores "mem_write_ratio".

Definition mem_ratio_written_of_creature (creature : json) : result json :=
  fitness <-? py_getitem creature "fitness" ;
  scores <-? py_getitem fitness "scores" ;
  py_getitem scores "mem_ratio_written".

Definition code_coverage_of_creature (creature : json) : result json :=
  fitness <-? py_getitem creature "fitness" ;
  scores <-? py_getitem fitness "scores" ;
  py_getitem scores "code_coverage".

(** ** The environment: file system, pandas and standard output *)

(** What [gzip.open(path)] followed by [json.load(f)] can fail with: an
    exception of the gzip, zlib, json or os layer (all subclasses of
    [Exception]), known here by its class name and by the text [str(e)]. *)
Record lib_error : Type := {
  err_class : string;
  err_str : string
}.

(** The file system and the pandas library as the module sees them.
    - [gzip_json_load path] is the outcome of opening [path] with
      [gzip.open] and parsing the stream with [json.load];
    - [os_walk_files directory] is [next(os.walk(directory))[2]], the names
      of the files directly inside [directory]; [os.walk] yields nothing for
      a directory it cannot scan, which is [None] here;
    - [glob_glob pattern] is what [glob.glob] would return;
    - [pd_cell col v] is the cell that holds the value [v] in the column
      pandas builds from the list [col]: pandas picks one dtype for the
      column and stores every value in it ([None] as NaN in a float column,
      say);
    - [pd_concat_cell a b v] is the cell that holds [v], a cell of one of
      two columns with the cells [a] and [b], in the column that appending
      the second to the first gives: the two dtypes are unified and the
      cells converted.
    The dtype pandas picks is taken to be determined by the cells. *)
Record World : Type := {
  gzip_json_load : string -> lib_error + json;
  os_walk_files : string -> option (list string);
  glob_glob : string -> list string;
  pd_cell : list json -> json -> json;
  pd_concat_cell : list json -> list json -> json -> json
}.

(** An object handed to [print]: a string or a list of strings. *)
Inductive printed : Type :=
| PStr (s : string)
| PList (l : list string).

Definition stdout := list printed.

(** Computations that print and may raise.  What was printed before an
    exception stays printed. *)
Definition M (A : Type) : Type := stdout -> result A * stdout.

Definition ret {A} (a : A) : M A := fun out => (Ok a, out).

Definition raise {A} (e : exn) : M A := fun out => (Raise e, out).

Definition bind {A B} (m : M A) (k : A -> M B) : M B :=
  fun out =>
    match m out with
    | (Ok a, out') => k a out'
    | (Raise e, out') => (Raise e, out')
    end.

Definition lift {A} (r : result A) : M A := fun out => (r, out).

Definition print (p : printed) : M unit := fun out => (Ok tt, out ++ [p]).

Declare Scope m_scope.
Delimit Scope m_scope with M.
Notation "x <- c ;; k" := (bind c (fun x => k))
  (at level 61, c at next level, right associativity) : m_scope.
Notation "c ;; k" := (bind c (fun _ => k))
  (at level 61, right associativity) : m_scope.

(** [[f(c) for c in items]] for a function that may raise. *)
Fixpoint comprehension {A B} (f : A -> result B) (items : list A) : result (list B) :=
  match items with
  | [] => Ok []
  | c :: rest =>
      v <-? f c ;
      vs <-? comprehension f rest ;
      Ok (v :: vs)
  end.

(** [[f(x) for x in xs]] for a function that prints and may raise. *)
Fixpoint comprehensionM {A B} (f : A -> M B) (xs : list A) : M (list B) :=
  match xs with
  | [] => ret []
  | x :: rest =>
      (v <- f x ;;
       vs <- comprehensionM f rest ;;
       ret (v :: vs))%M
  end.

(** The names bound in the module's global namespace once it is imported:
    the seven imports and the functions it defines. *)
Definition module_globals : list string :=
  [ "ft"; "gzip"; "joypy"; "json"; "os"; "pd"; "sns";
    "load_population"; "load_soup"; "fitness_of_creature";
    "generation_of_creature"; "mem_write_ratio_of_creature";
    "mem_ratio_written_of_creature"; "code_coverage_of_creature";
    "fitness_scores_of_population"; "generations_of_population"; "files";
    "build_dataframe"; "dataframe_for_dir"; "plot_hexbin"; "plot_pleasures";
    "population_dirs"; "dataframe_for_dirs"; "dataframe_for_population";
    "pleasures_for_population"; "plot_fitness_by_generation";
    "unknown_pleasures_fitness_by_generation";
    "get_champions_for_population" ].

(** The builtins the module refers to. *)
Definition builtins : list string :=
  [ "print"; "type"; "str"; "next"; "min"; "max"; "Exception" ].

(** Evaluating a global name: the module's globals, then the builtins, else
    [NameError]. *)
Definition load_global (name : string) : M unit :=
  if existsb (String.eqb name) (module_globals ++ builtins)
  then ret tt
  else raise (NameError name).

(** [os.path.join(a, b)] on a POSIX system. *)
Fixpoint endswith_sep (s : string) : bool :=
  match s with
  | EmptyString => false
  | String c EmptyString => Ascii.eqb c "/"%char
  | String _ s' => endswith_sep s'
  end.

Definition os_path_join (a b : string) : string :=
  if String.prefix "/" b then b
  else if String.eqb a "" || endswith_sep a then a ++ b
  else a ++ "/" ++ b.

(** ** Tables *)

(** A [pandas.DataFrame] as far as this module uses it: named columns in
    order, each a list of cells.  A cell is the value as pandas stores it
    ([pd_cell], [pd_concat_cell]); the row index is not part of the
    model. *)
Definition DataFrame := list (string * list json).

Definition df_columns (df : DataFrame) : list string := map fst df.

Fixpoint df_col (name : string) (df : DataFrame) : option (list json) :=
  match df with
  | [] => None
  | (n, c) :: df' => if String.eqb name n then Some c else df_col name df'
  end.

Definition df_nrows (df : DataFrame) : nat :=
  match df with
  | [] => 0
  | (_, c) :: _ => length c
  end.

(** The rows of a table, each the list of its cells in column order. *)
Fixpoint zip_cons (c : list json) (rows : list (list json)) : list (list json) :=
  match c, rows with
  | x :: c', r :: rows' => (x :: r) :: zip_cons c' rows'
  | _, _ => []
  end.

Fixpoint df_rows (df : DataFrame) : list (list json) :=
  match df with
  | [] => []
  | [(_, c)] => map (fun x => [x]) c
  | (_, c) :: df' => zip_cons c (df_rows df')
  end.

(** Storing a key of a dict of columns: an existing key keeps its place and
    takes the new value, a new key goes last. *)
Fixpoint data_set (d : DataFrame) (k : string) (v : list json) : DataFrame :=
  match d with
  | [] => [(k, v)]
  | (k', v') :: d' =>
      if String.eqb k k' then (k', v) :: d' else (k', v') :: data_set d' k v
  end.

Fixpoint same_length (n : nat) (d : DataFrame) : bool :=
  match d with
  | [] => true
  | (_, c) :: d' => Nat.eqb (length c) n && same_length n d'
  end.

(** [pd.DataFrame(data=d)] for a dict of lists: the lists must have one
    length; each list becomes a column, every value stored as the dtype of
    its column has it. *)
Definition pd_DataFrame (w : World) (d : DataFrame) : result DataFrame :=
  if same_length (df_nrows d) d
  then Ok (map (fun nc => (fst nc, map (pd_cell w (snd nc)) (snd nc))) d)
  else Raise ValueError.

(** [pd.DataFrame.append(self, other)] (pandas 1.x): the rows of [self]
    followed by the rows of [other]; the columns are those of [self]
    followed by the columns only [other] has, and a table that lacks a
    column contributes NaN cells to it.  Each column of the result has one
    dtype, to which the cells of both tables are converted. *)
Definition col_or_nan (name : string) (df : DataFrame) : list json :=
  match df_col name df with
  | Some c => c
  | None => repeat (JFloat nan) (df_nrows df)
  end.

Definition has_col (df : DataFrame) (name : string) : bool :=
  match df_col name df with
  | Some _ => true
  | None => false
  end.

Definition DataFrame_append (w : World) (self other : DataFrame) : DataFrame :=
  map (fun name =>
         let a := col_or_nan name self in
         let b := col_or_nan name other in
         (name, map (pd_concat_cell w a b) (a ++ b)))
      (df_columns self ++
       filter (fun name => negb (has_col self name)) (df_columns other)).

(** [functools.reduce(function, iterable)] without an initial value, over a
    list that is already built: an empty list raises [TypeError]. *)
Definition reduce {A} (function : A -> A -> A) (xs : list A) : result A :=
  match xs with
  | [] => Raise TypeError
  | x :: rest => Ok (fold_left function rest x)
  end.

(** The same over a generator expression [(gen(x) for x in xs)], whose
    items are computed one by one as [reduce] asks for them.  A
    [StopIteration] escaping the body of a generator is turned into a
    [RuntimeError] (PEP 479, Python 3.7 and later). *)
Definition in_generator {A} (m : M A) : M A :=
  fun out =>
    match m out with
    | (Raise StopIteration, out') => (Raise RuntimeError, out')
    | r => r
    end.

Fixpoint reduce_from {A X} (function : A -> A -> A) (gen : X -> M A)
    (value : A) (xs : list X) : M A :=
  match xs with
  | [] => ret value
  | x :: rest =>
      (element <- in_generator (gen x) ;;
       reduce_from function gen (function value element) rest)%M
  end.

Definition reduce_gen {A X} (function : A -> A -> A) (gen : X -> M A)
    (xs : list X) : M A :=
  match xs with
  | [] => raise TypeError
  | x :: rest =>
      (value <- in_generator (gen x) ;;
       reduce_from function gen value rest)%M
  end.

(** ** The module's functions *)

Section PopulationTools.

Variable w : World.

Local Open Scope m_scope.

(** [try: with gzip.open(path) as f: return json.load(f)]
    [except Exception as e: print(f"Failed to read population from {path}: {e}"); return []] *)
Definition load_population (path : string) : M json :=
  match gzip_json_load w path with
  | inr v => ret v
  | inl e =>
      print (PStr ("Failed to read population from " ++ path ++ ": " ++ err_str e)) ;;
      ret (JArr [])
  end.

(** [if type(population) is str: population = load_population(population)] *)
Definition population_or_path (population : json) : M json :=
  match population with
  | JStr path => load_population path
  | _ => ret population
  end.

(** [[p['fitness']['cached_scalar'] for p in population
      if 'fitness' in p and 'cached_scalar' in p['fitness']]] *)
Fixpoint fitnesses_of (items : list json) : result (list json) :=
  match items with
  | [] => Ok []
  | p :: rest =>
      (has_fitness <-? py_in "fitness" p ;
       keep <-? (if has_fitness
                 then fitness <-? py_getitem p "fitness" ;
                      py_in "cached_scalar" fitness
                 else Ok false) ;
       if keep then
         fitness <-? py_getitem p "fitness" ;
         v <-? py_getitem fitness "cached_scalar" ;
         vs <-? fitnesses_of rest ;
         Ok (v :: vs)
       else fitnesses_of rest)%result
  end.

Definition fitness_scores_of_population (population : json) : M (list json) :=
  population <- population_or_path population ;;
  lift (items <-? py_iter population ; fitnesses_of items)%result.

Definition generations_of_population (population : json) : M (list json) :=
  population <- population_or_path population ;;
  lift (items <-? py_iter population ;
        comprehension (fun p => py_getitem p "generation") items)%result.

(** [fs = [os.path.join(directory, f) for f in next(os.walk(directory))[2]]]
    [print(fs); return fs] *)
Definition files (directory : string) : M (list string) :=
  match os_walk_files w directory with
  | None => raise StopIteration
  | Some names =>
      let fs := map (os_path_join directory) names in
      print (PList fs) ;;
      ret fs
  end.

Definition build_dataframe (path c1_name c2_name : string)
    (f1 f2 : json -> result json) : M DataFrame :=
  population <- load_population path ;;
  col1 <- lift (items <-? py_iter population ; comprehension f1 items)%result ;;
  col2 <- lift (items <-? py_iter population ; comprehension f2 items)%result ;;
  let d := data_set (data_set [] c1_name col1) c2_name col2 in
  lift (pd_DataFrame w d).

(** The generator's source [files(directory)] is evaluated when the
    generator expression is created, before [reduce] runs. *)
Definition dataframe_for_dir (directory c1_name c2_name : string)
    (f1 f2 : json -> result json) : M DataFrame :=
  paths <- files directory ;;
  reduce_gen (DataFrame_append w)
    (fun path => build_dataframe path c1_name c2_name f1 f2) paths.

(** [glob] is looked up in the module's globals when the call is evaluated,
    before its argument is. *)
Definition population_dirs (population_name : string) (island : option string)
    : M (list string) :=
  match island with
  | None =>
      load_global "glob" ;;
      ret (glob_glob w (population_name ++ "/island_*/population"))
  | Some island =>
      load_global "glob" ;;
      ret (glob_glob w (population_name ++ "/island_" ++ island ++ "/population"))
  end.

Definition dataframe_for_dirs (pop_dirs : list string)
    (col_1_name col_2_name : string) (col_1_func col_2_func : json -> result json)
    : M DataFrame :=
  print (PList pop_dirs) ;;
  tables <- comprehensionM
              (fun d => dataframe_for_dir d col_1_name col_2_name col_1_func col_2_func)
              pop_dirs ;;
  data <- lift (reduce (DataFrame_append w) tables) ;;
  ret data.

Definition dataframe_for_population (pop_name col_1_name col_2_name : string)
    (col_1_func col_2_func : json -> result json) : M DataFrame :=
  load_global "glob" ;;
  let dirs := glob_glob w (pop_name ++ "/island_*/population") in
  data <- dataframe_for_dirs dirs col_1_name col_2_name col_1_func col_2_func ;;
  ret data.

Definition get_champions_for_population (population : string) : M (list json) :=
  load_global "glob" ;;
  let champions := glob_glob w (population ++ "/island_*/champions/champion*.json.gz") in
  comprehensionM load_population champions.

End PopulationTools.

(** ** Notions used in the statements *)

(** The value at the end of a path of keys through nested mappings, when
    every key of the path is there. *)
Fixpoint lookup_path (keys : list string) (v : json) : option json :=
  match keys with
  | [] => Some v
  | k :: rest =>
      match v with
      | JObj d =>
          match dict_get k d with
          | Some v' => lookup_path rest v'
          | None => None
          end
      | _ => None
      end
  end.

Definition sub_score_extractors : list (string * (json -> result json)) :=
  [ ("mem_write_ratio", mem_write_ratio_of_creature);
    ("mem_ratio_written", mem_ratio_written_of_creature);
    ("code_coverage", code_coverage_of_creature) ].

Definition sub_score (name : string) (creature : json) : result json :=
  (fitness <-? py_getitem creature "fitness" ;
   scores <-? py_getitem fitness "scores" ;
   py_getitem scores name)%result.

(** A record of the data model: a mapping whose [fitness], when present, is
    a mapping. *)
Definition is_record (p : json) : bool :=
  match p with
  | JObj d =>
      match dict_get "fitness" d with
      | None | Some (JObj _) => true
      | Some _ => false
      end
  | _ => false
  end.

(** The [fitness.cached_scalar] values of the records that have the whole
    path, in the order of the records. *)
Fixpoint present_scalars (items : list json) : list json :=
  match items with
  | [] => []
  | p :: rest =>
      match lookup_path ["fitness"; "cached_scalar"] p with
      | Some v => v :: present_scalars rest
      | None => present_scalars rest
      end
  end.

(** What [load_population] returns for a path, and what it prints. *)
Definition loaded (w : World) (path : string) : json :=
  match gzip_json_load w path with
  | inr v => v
  | inl _ => JArr []
  end.

Definition load_log (w : World) (path : string) : stdout :=
  match gzip_json_load w path with
  | inr _ => []
  | inl e =>
      [PStr ("Failed to read population from " ++ path ++ ": " ++ err_str e)]
  end.

(** The dict [{c1_name: col1, c2_name: col2}]. *)
Definition table2 (c1_name c2_name : string) (col1 col2 : list json) : DataFrame :=
  data_set (data_set [] c1_name col1) c2_name col2.

(** Both extractors return on every creature of [cs], with values [g1 c]
    and [g2 c]. *)
Definition extracts (f1 f2 : json -> result json) (g1 g2 : json -> json)
    (cs : list json) : Prop :=
  forall c, In c cs -> f1 c = Ok (g1 c) /\ f2 c = Ok (g2 c).

(** The paths [files] returns for a directory, and what a successful
    [dataframe_for_dir] prints. *)
Definition dir_paths (directory : string) (names : list string) : list string :=
  map (os_path_join directory) names.

Definition dir_log (w : World) (directory : string) (names : list string)
    : stdout :=
  PList (dir_paths directory names)
  :: flat_map (load_log w) (dir_paths directory names).

(** The cells of one row of the table built from [{c1_name: col1,
    c2_name: col2}]: with one name given for both columns the dict keeps a
    single entry, the second column. *)
Definition row_cells (c1_name c2_name : string) (v1 v2 : json) : list json :=
  if String.eqb c2_name c1_name then [v2] else [v1; v2].

(** A directory that [files] can list, with at least one file, each of
    whose populations can be iterated. *)
Definition dir_loads (w : World) (directory : string)
    (pops : list (list json)) : Prop :=
  exists names,
    os_walk_files w directory = Some names /\
    names <> [] /\
    Forall2 (fun path cs => py_iter (loaded w path) = Ok cs)
            (dir_paths directory names) pops.

(** The value of an extractor where it returns one. *)
Definition or_none (f : json -> result json) (c : json) : json :=
  match f c with
  | Ok v => v
  | Raise _ => None_
  end.

(** A table with the two named columns, of equal length, one row per
    creature of [cs], whose row [i] holds the two extracted values of the
    [i]-th creature as [R] lets a cell hold them. *)
Definition two_column_table (R : json -> json -> Prop)
    (c1_name c2_name : string) (g1 g2 : json -> json)
    (cs : list json) (df : DataFrame) : Prop :=
  df_columns df = [c1_name; c2_name] /\
  (exists col1 col2,
     df_col c1_name df = Some col1 /\ df_col c2_name df = Some col2 /\
     length col1 = length col2 /\ length col1 = length cs) /\
  length (df_rows df) = length cs /\
  (forall i c, nth_error cs i = Some c ->
     exists x y, nth_error (df_rows df) i = Some [x; y] /\
                 R (g1 c) x /\ R (g2 c) y).

(** ** How pandas stores a value *)

(** The float a Python [int] converts to: the nearest binary64 number. *)
Definition float_of_Z (z : Z) : float :=
  SF2Prim (binary_normalize prec emax z 0 false).

(** [stored_as v c]: the cell [c] is the value [v] as a column can hold it:
    [v] itself, NaN for [None] in a float column, or the float of an
    integer in a float column. *)
Definition stored_as (v c : json) : Prop :=
  c = v \/
  (v = JNull /\ c = JFloat nan) \/
  (exists n, v = JInt n /\ c = JFloat (float_of_Z n)).

(** The environment's pandas converts cells in these ways only. *)
Definition pandas_coerces (w : World) : Prop :=
  (forall col v, stored_as v (pd_cell w col v)) /\
  (forall a b v, stored_as v (pd_concat_cell w a b v)).

(** A relation between values and cells that holds of every cell pandas
    builds and survives every conversion on appending. *)
Definition kept_by_pandas (w : World) (R : json -> json -> Prop) : Prop :=
  (forall col v, R v (pd_cell w col v)) /\
  (forall a b v0 v, R v0 v -> R v0 (pd_concat_cell w a b v)).

(** The table [{c1_name: col1, c2_name: col2}] whose columns hold, cell for
    cell and up to [R], the two extracted values of the creatures [cs]. *)
Definition assembled (R : json -> json -> Prop) (c1_name c2_name : string)
    (g1 g2 : json -> json) (cs : list json) (df : DataFrame) : Prop :=
  exists col1 col2,
    df = table2 c1_name c2_name col1 col2 /\
    Forall2 R (map g1 cs) col1 /\
    Forall2 R (map g2 cs) col2.

(** A row whose cells hold the given values. *)
Definition row_holds (values row : list json) : Prop :=
  Forall2 stored_as values row.

(** The rows of the two-file scenario: [(1, 0.5)] then [(2, absent)], the
    generations as integers or as the equal floats, the absent fitness as
    [None] or as NaN. *)
Definition scenario_rows (rows : list (list json)) : Prop :=
  exists gen1 gen2 fit2,
    rows = [[gen1; JFloat 0.5]; [gen2; fit2]] /\
    (gen1 = JInt 1 \/ gen1 = JFloat 1) /\
    (gen2 = JInt 2 \/ gen2 = JFloat 2) /\
    (fit2 = None_ \/ fit2 = JFloat nan).

(** *** A sample pandas *)

(** The conversions of pandas 1.x on columns of [None], floats and
    integers of the int64 range; any other column is left as it is here.
    A list of numbers (with or without [None]) that holds a float or a
    [None] becomes a float column; a list of integers, or of [None] only,
    is kept.  On appending, the result is a float column under the same
    condition on the cells of both columns together, and also when one of
    the two is empty (an empty column is a float column). *)
Definition is_none (v : json) : bool :=
  match v with JNull => true | _ => false end.

Definition is_float (v : json) : bool :=
  match v with JFloat _ => true | _ => false end.

Definition is_int64 (v : json) : bool :=
  match v with
  | JInt n => (Z.leb (- 2 ^ 63) n && Z.ltb n (2 ^ 63))%bool
  | _ => false
  end.

Definition to_float (v : json) : json :=
  match v with
  | JNull => JFloat nan
  | JInt n => JFloat (float_of_Z n)
  | _ => v
  end.

Definition numbers_or_none (l : list json) : bool :=
  forallb (fun v => is_none v || is_float v || is_int64 v) l &&
  existsb (fun v => is_float v || is_int64 v) l.

Definition is_empty (l : list json) : bool :=
  match l with [] => true | _ => false end.

Definition pandas_cell (col : list json) (v : json) : json :=
  if numbers_or_none col && (existsb is_float col || existsb is_none col)
  then to_float v
  else v.

Definition pandas_concat_cell (a b : list json) (v : json) : json :=
  if numbers_or_none (a ++ b) &&
     (existsb is_float (a ++ b) || existsb is_none (a ++ b) ||
      is_empty a || is_empty b)
  then to_float v
  else v.

(** ** Example worlds *)

Definition no_such_file (path : string) : lib_error :=
  {| err_class := "FileNotFoundError";
     err_str := "[Errno 2] No such file or directory: '" ++ path ++ "'" |}.

(** A file system with nothing in it. *)
Definition bare_world : World :=
  {| gzip_json_load := fun path => inl (no_such_file path);
     os_walk_files := fun _ => None;
     glob_glob := fun _ => [];
     pd_cell := pandas_cell;
     pd_concat_cell := pandas_concat_cell |}.

(** One directory, [pop], that exists and holds no file. *)
Definition empty_dir_world : World :=
  {| gzip_json_load := fun path => inl (no_such_file path);
     os_walk_files := fun d => if String.eqb d "pop" then Some [] else None;
     glob_glob := fun _ => [];
     pd_cell := pandas_cell;
     pd_concat_cell := pandas_concat_cell |}.

Definition creature_1 : json :=
  JObj [("generation", JInt 1); ("fitness", JObj [("cached_scalar", JFloat 0.5)])].

Definition creature_2 : json :=
  JObj [("generation", JInt 2)].

(** The directory [pop] holds the files [a.json.gz], with the array
    [[creature_1]], and [b.json.gz], with the array [[creature_2]], listed
    in this order. *)
Definition two_file_world : World :=
  {| gzip_json_load := fun path =>
       if String.eqb path "pop/a.json.gz" then inr (JArr [creature_1])
       else if String.eqb path "pop/b.json.gz" then inr (JArr [creature_2])
       else inl (no_such_file path);
     os_walk_files := fun d =>
       if String.eqb d "pop" then Some ["a.json.gz"; "b.json.gz"] else None;
     glob_glob := fun _ => [];
     pd_cell := pandas_cell;
     pd_concat_cell := pandas_concat_cell |}.

(** The directory [pop] lists [a.json.gz], as above, and [c.json.gz], which
    is not a gzip file. *)
Definition corrupt_file_world : World :=
  {| gzip_json_load := fun path =>
       if String.eqb path "pop/a.json.gz" then inr (JArr [creature_1])
       else if String.eqb path "pop/c.json.gz"
       then inl {| err_class := "BadGzipFile";
                   err_str := "Not a gzipped file (b'no')" |}
       else inl (no_such_file path);
     os_walk_files := fun d =>
       if String.eqb d "pop" then Some ["a.json.gz"; "c.json.gz"] else None;
     glob_glob := fun _ => [];
     pd_cell := pandas_cell;
     pd_concat_cell := pandas_concat_cell |}.

(** An extractor that raises [StopIteration], as a call of [next] on an
    exhausted iterator would. *)
Definition exhausted (_ : json) : result json := Raise StopIteration.

(** ** Plotting entry points *)

(** The two plotting libraries are outside the module.  Their calls are
    parameters: [sns_jointplot col_1 col_2 data] stands for
    [sns.jointplot(x=col_1, y=col_2, data=data, kind="hex", ...)] and
    [joypy_joyplot data by column title] for
    [joypy.joyplot(data, by=..., column=..., title=..., ...)], which returns
    a figure and its axes.  Either may print or raise. *)
Section Plots.

Variable w : World.
Variables Fig Axes : Type.
Variable sns_jointplot : string -> string -> DataFrame -> M unit.
Variable joypy_joyplot :
  DataFrame -> string -> string -> string -> M (Fig * Axes).

Local Open Scope m_scope.

Definition plot_hexbin (data : DataFrame) (col_1 col_2 : string) : M DataFrame :=
  sns_jointplot col_1 col_2 data ;;
  ret data.

(** [str(x)] for an argument that is a string or [None]. *)
Definition py_str (x : option string) : string :=
  match x with
  | Some s => s
  | None => "None"
  end.

(** [if title is None: title = f"{col_2} by {col_1}\n{population_name} population"] *)
Definition plot_pleasures (data : DataFrame) (col_1 col_2 : string)
    (population_name title : option string) : M (DataFrame * Fig * Axes) :=
  let title :=
    match title with
    | None =>
        (col_2 ++ " by " ++ col_1 ++ String "010"%char EmptyString
               ++ py_str population_name ++ " population")%string
    | Some t => t
    end in
  fig_axes <- joypy_joyplot data col_1 col_2 title ;;
  ret (data, fst fig_axes, snd fig_axes).

(** The call [plot_pleasures(data, col_1_name, col_2_name, title)] is
    positional: [title] lands in the [population_name] parameter. *)
Definition pleasures_for_population (pop_name col_1_name col_2_name : string)
    (col_1_func col_2_func : json -> result json) (title : option string)
    : M DataFrame :=
  data <- dataframe_for_population w pop_name col_1_name col_2_name
            col_1_func col_2_func ;;
  plot_pleasures data col_1_name col_2_name title None ;;
  ret data.

Definition plot_fitness_by_generation (pop_name : string)
    (island : option string) : M DataFrame :=
  pop_dirs <- population_dirs w pop_name island ;;
  tables <- comprehensionM
              (fun pop_dir =>
                 dataframe_for_dir w pop_dir "generation" "fitness"
                   generation_of_creature fitness_of_creature)
              pop_dirs ;;
  data <- lift (reduce (DataFrame_append w) tables) ;;
  plot_hexbin data "generation" "fitness" ;;
  ret data.

End Plots.

(** ** Further notions used in the statements *)

(** A JSON value that is neither a container nor a string: [null], a
    boolean or a number. *)
Definition is_scalar (v : json) : bool :=
  match v with
  | JNull | JBool _ | JInt _ | JFloat _ => true
  | JStr _ | JArr _ | JObj _ => false
  end.

(** The line [load_population] prints for a failure [e] at [path]. *)
Definition diagnostic (path : string) (e : lib_error) : printed :=
  PStr ("Failed to read population from " ++ path ++ ": " ++ err_str e).

(** What [build_dataframe] returns for a path; what it prints is
    [load_log]. *)
Definition build_result (w : World) (path c1_name c2_name : string)
    (f1 f2 : json -> result json) : result DataFrame :=
  fst (build_dataframe w path c1_name c2_name f1 f2 []).

(** The exception as it leaves a generator. *)
Definition generator_exn (e : exn) : exn :=
  match e with
  | StopIteration => RuntimeError
  | _ => e
  end.

(** An extractor returns on [c]. *)
Definition returns (f : json -> result json) (c : json) : Prop :=
  exists v, f c = Ok v.

(** The directory [pop] of [two_file_world], its two files listed the other
    way round. *)
Definition swapped_file_world : World :=
  {| gzip_json_load := gzip_json_load two_file_world;
     os_walk_files := fun d =>
       if String.eqb d "pop" then Some ["b.json.gz"; "a.json.gz"] else None;
     glob_glob := fun _ => [];
     pd_cell := pandas_cell;
     pd_concat_cell := pandas_concat_cell |}.

(** The directory [pop] lists one file, [ab.json.gz], with the array
    [[creature_1, creature_2]]. *)
Definition one_file_world : World :=
  {| gzip_json_load := fun path =>
       if String.eqb path "pop/ab.json.gz"
       then inr (JArr [creature_1; creature_2])
       else inl (no_such_file path);
     os_walk_files := fun d =>
       if String.eqb d "pop" then Some ["ab.json.gz"] else None;
     glob_glob := fun _ => [];
     pd_cell := pandas_cell;
     pd_concat_cell := pandas_concat_cell |}.

(** The directory [pop] lists two files and neither can be read. *)
Definition unreadable_world : World :=
  {| gzip_json_load := fun path =>
       inl {| err_class := "BadGzipFile";
              err_str := "Not a gzipped file (b'no')" |};
     os_walk_files := fun d =>
       if String.eqb d "pop" then Some ["x.json.gz"; "y.json.gz"] else None;
     glob_glob := fun _ => [];
     pd_cell := pandas_cell;
     pd_concat_cell := pandas_concat_cell |}.

(** The file [pop/null.json.gz] holds the JSON document [null]. *)
Definition null_file_world : World :=
  {| gzip_json_load := fun path =>
       if String.eqb path "pop/null.json.gz" then inr JNull
       else inl (no_such_file path);
     os_walk_files := fun d =>
       if String.eqb d "pop" then Some ["null.json.gz"] else None;
     glob_glob := fun _ => [];
     pd_cell := pandas_cell;
     pd_concat_cell := pandas_concat_cell |}.

(** Three directories: [pop] lists [a.json.gz] (the array [[creature_1]]),
    [m.json.gz] (one record, without [generation]) and [b.json.gz] (which
    cannot be read); [ok] lists one file with the array [[creature_2]];
    [void] lists no file. *)
Definition three_dir_world : World :=
  {| gzip_json_load := fun path =>
       if String.eqb path "pop/a.json.gz" then inr (JArr [creature_1])
       else if String.eqb path "pop/m.json.gz" then inr (JArr [JObj []])
       else if String.eqb path "ok/c.json.gz" then inr (JArr [creature_2])
       else inl (no_such_file path);
     os_walk_files := fun d =>
       if String.eqb d "pop"
       then Some ["a.json.gz"; "m.json.gz"; "b.json.gz"]
       else if String.eqb d "ok" then Some ["c.json.gz"]
       else if String.eqb d "void" then Some []
       else None;
     glob_glob := fun _ => [];
     pd_cell := pandas_cell;
     pd_concat_cell := pandas_concat_cell |}.

(** * Properties *)

(** ** Runs on the example worlds *)

Example os_path_join_runs :
  os_path_join "pop" "a.json.gz" = "pop/a.json.gz" /\
  os_path_join "pop/" "a.json.gz" = "pop/a.json.gz" /\
  os_path_join "" "a.json.gz" = "a.json.gz" /\
  os_path_join "pop" "/tmp/a" = "/tmp/a".
Proof. repeat split. Qed.

Example py_in_runs :
  py_in "fitness" (JStr "no fitness yet") = Ok true /\
  py_in "fitness" (JArr [JStr "fitness"]) = Ok true /\
  py_in "fitness" (JObj [("generation", JInt 1)]) = Ok false /\
  py_in "fitness" (JInt 3) = Raise TypeError.
Proof. repeat split. Qed.

Example dataframe_for_dir_two_files :
  dataframe_for_dir two_file_world "pop" "generation" "fitness"
    generation_of_creature fitness_of_creature []
  = (Ok [("generation", [JInt 1; JInt 2]); ("fitness", [JFloat 0.5; JFloat nan])],
     [PList ["pop/a.json.gz"; "pop/b.json.gz"]]).
Proof. vm_compute. reflexivity. Qed.

Example dataframe_for_dir_corrupt_file :
  dataframe_for_dir corrupt_file_world "pop" "generation" "fitness"
    generation_of_creature fitness_of_creature []
  = (Ok [("generation", [JFloat 1]); ("fitness", [JFloat 0.5])],
     [PList ["pop/a.json.gz"; "pop/c.json.gz"];
      PStr "Failed to read population from pop/c.json.gz: Not a gzipped file (b'no')"]).
Proof. vm_compute. reflexivity. Qed.

Example dataframe_for_dir_missing_sub_score :
  dataframe_for_dir two_file_world "pop" "generation" "coverage"
    generation_of_creature code_coverage_of_creature []
  = (Raise (KeyError "scores"), [PList ["pop/a.json.gz"; "pop/b.json.gz"]]).
Proof. vm_compute. reflexivity. Qed.

Example dataframe_for_dir_stop_iteration :
  dataframe_for_dir two_file_world "pop" "generation" "fitness"
    generation_of_creature exhausted []
  = (Raise RuntimeError, [PList ["pop/a.json.gz"; "pop/b.json.gz"]]) /\
  dataframe_for_dir two_file_world "nowhere" "generation" "fitness"
    generation_of_creature fitness_of_creature []
  = (Raise StopIteration, []).
Proof. split; vm_compute; reflexivity. Qed.

Example dataframe_for_dirs_one_name :
  dataframe_for_dirs two_file_world ["pop"; "pop"] "x" "x"
    generation_of_creature fitness_of_creature []
  = (Ok [("x", [JFloat 0.5; JFloat nan; JFloat 0.5; JFloat nan])],
     [PList ["pop"; "pop"];
      PList ["pop/a.json.gz"; "pop/b.json.gz"];
      PList ["pop/a.json.gz"; "pop/b.json.gz"]]).
Proof. vm_compute. reflexivity. Qed.

Example generations_of_population_runs :
  generations_of_population two_file_world (JStr "pop/b.json.gz") []
  = (Ok [JInt 2], []) /\
  generations_of_population two_file_world (JArr [JObj []]) []
  = (Raise (KeyError "generation"), []).
Proof. split; vm_compute; reflexivity. Qed.

(** ** The loader *)

Lemma load_population_total (w : World) (path : string) (out : stdout) :
  exists v out', load_population w path out = (Ok v, out').
Proof.
  unfold load_population.
  destruct (gzip_json_load w path) as [e | v]; do 2 eexists; reflexivity.
Qed.

(** C1: when opening, decompressing or parsing the file at [path] fails,
    [load_population] prints one diagnostic line naming the path and the
    failure, returns the empty list and raises nothing. *)
Theorem load_population_failure (w : World) (path : string) (e : lib_error)
    (out : stdout) :
  gzip_json_load w path = inl e ->
  load_population w path out =
    (Ok (JArr []),
     out ++ [PStr ("Failed to read population from " ++ path ++ ": " ++ err_str e)]).
Proof.
  intros Hfail. unfold load_population. rewrite Hfail. reflexivity.
Qed.

Lemma load_population_failure_witness :
  load_population bare_world "pop/missing.json.gz" [] =
    (Ok (JArr []),
     [PStr "Failed to read population from pop/missing.json.gz: [Errno 2] No such file or directory: 'pop/missing.json.gz'"]).
Proof.
  apply (load_population_failure bare_world "pop/missing.json.gz"
           (no_such_file "pop/missing.json.gz") []).
  reflexivity.
Defined.

Lemma load_population_success (w : World) (path : string) (v : json)
    (out : stdout) :
  gzip_json_load w path = inr v ->
  load_population w path out = (Ok v, out).
Proof.
  intros Hok. unfold load_population. rewrite Hok. reflexivity.
Qed.

(** ** The extractors *)

(** C2 (amended): on a record without a [fitness] key, or whose [fitness]
    is a mapping without a [cached_scalar] key, [fitness_of_creature]
    returns [None] and does not raise; with both keys it returns the
    stored value.  [None] is neither the integer nor a float zero. *)
Theorem fitness_of_creature_spec (d : dict) :
  (dict_get "fitness" d = None ->
   fitness_of_creature (JObj d) = Ok None_) /\
  (forall fd, dict_get "fitness" d = Some (JObj fd) ->
              dict_get "cached_scalar" fd = None ->
              fitness_of_creature (JObj d) = Ok None_) /\
  (forall fd v, dict_get "fitness" d = Some (JObj fd) ->
                dict_get "cached_scalar" fd = Some v ->
                fitness_of_creature (JObj d) = Ok v) /\
  None_ <> JInt 0 /\ (forall x, None_ <> JFloat x).
Proof.
  unfold fitness_of_creature, py_in, py_getitem, rbind.
  repeat split.
  - intros H. rewrite H. reflexivity.
  - intros fd Hf Hc. rewrite Hf, Hc. reflexivity.
  - intros fd v Hf Hc. rewrite Hf, Hc. reflexivity.
  - discriminate.
  - discriminate.
Qed.

Lemma fitness_of_creature_spec_witness :
  fitness_of_creature (JObj [("generation", JInt 2)]) = Ok None_ /\
  fitness_of_creature (JObj [("fitness", JObj [("scores", JObj [])])]) = Ok None_ /\
  fitness_of_creature creature_1 = Ok (JFloat 0.5).
Proof.
  split; [| split].
  - apply (proj1 (fitness_of_creature_spec [("generation", JInt 2)])).
    reflexivity.
  - apply (proj1 (proj2 (fitness_of_creature_spec
                           [("fitness", JObj [("scores", JObj [])])]))
             [("scores", JObj [])]); reflexivity.
  - apply (proj1 (proj2 (proj2 (fitness_of_creature_spec
             [("generation", JInt 1);
              ("fitness", JObj [("cached_scalar", JFloat 0.5)])])))
             [("cached_scalar", JFloat 0.5)] (JFloat 0.5)); reflexivity.
Defined.

(** C2 fails as stated on a record whose [fitness] is JSON [null]: the
    record has no [fitness.cached_scalar] path, and the extractor raises
    instead of returning [None]. *)
Lemma fitness_of_creature_null_counterexample :
  lookup_path ["fitness"; "cached_scalar"]
    (JObj [("generation", JInt 3); ("fitness", JNull)]) = None /\
  fitness_of_creature (JObj [("generation", JInt 3); ("fitness", JNull)])
  = Raise TypeError /\
  fitness_of_creature (JObj [("generation", JInt 3); ("fitness", JNull)])
  <> Ok None_.
Proof. repeat split. discriminate. Qed.

(** A [fitness] value that is no container (say JSON [null]) makes the
    membership test itself raise. *)
Lemma fitness_of_creature_null_fitness (d : dict) :
  dict_get "fitness" d = Some JNull ->
  fitness_of_creature (JObj d) = Raise TypeError.
Proof.
  intros H. unfold fitness_of_creature, py_in, py_getitem, rbind.
  rewrite H. reflexivity.
Qed.

(** C5: [generation_of_creature] raises [KeyError] on a record without the
    [generation] key and returns the stored value on a record with it. *)
Theorem generation_of_creature_spec (d : dict) :
  (dict_get "generation" d = None ->
   generation_of_creature (JObj d) = Raise (KeyError "generation")) /\
  (forall v, dict_get "generation" d = Some v ->
             generation_of_creature (JObj d) = Ok v).
Proof.
  unfold generation_of_creature, py_getitem. split.
  - intros H. rewrite H. reflexivity.
  - intros v H. rewrite H. reflexivity.
Qed.

Lemma generation_of_creature_spec_witness :
  generation_of_creature (JObj [("fitness", JObj [])]) = Raise (KeyError "generation") /\
  generation_of_creature creature_2 = Ok (JInt 2).
Proof.
  split.
  - apply (proj1 (generation_of_creature_spec [("fitness", JObj [])])).
    reflexivity.
  - apply (proj2 (generation_of_creature_spec [("generation", JInt 2)]) (JInt 2)).
    reflexivity.
Defined.

Lemma sub_score_extractors_unfold (name : string) (f : json -> result json) :
  In (name, f) sub_score_extractors -> f = sub_score name.
Proof.
  intros [H | [H | [H | []]]]; inversion H; reflexivity.
Qed.

Lemma sub_score_spec (name : string) (d : dict) :
  (forall v, lookup_path ["fitness"; "scores"; name] (JObj d) = Some v ->
             sub_score name (JObj d) = Ok v) /\
  (dict_get "fitness" d = None ->
   sub_score name (JObj d) = Raise (KeyError "fitness")) /\
  (forall fd, dict_get "fitness" d = Some (JObj fd) ->
              dict_get "scores" fd = None ->
              sub_score name (JObj d) = Raise (KeyError "scores")) /\
  (forall fd sd, dict_get "fitness" d = Some (JObj fd) ->
                 dict_get "scores" fd = Some (JObj sd) ->
                 dict_get name sd = None ->
                 sub_score name (JObj d) = Raise (KeyError name)) /\
  (lookup_path ["fitness"; "scores"; name] (JObj d) = None ->
   exists e, sub_score name (JObj d) = Raise e).
Proof.
  unfold sub_score, py_getitem, rbind. cbn [lookup_path].
  repeat split.
  - intros v. destruct (dict_get "fitness" d) as [[| | | | | |fd]|]; try discriminate.
    destruct (dict_get "scores" fd) as [[| | | | | |sd]|]; try discriminate.
    destruct (dict_get name sd); [| discriminate].
    intros H; inversion H; reflexivity.
  - intros H; rewrite H; reflexivity.
  - intros fd Hf Hs; rewrite Hf, Hs; reflexivity.
  - intros fd sd Hf Hs Hn; rewrite Hf, Hs, Hn; reflexivity.
  - destruct (dict_get "fitness" d) as [[| | | | | |fd]|]; eauto.
    destruct (dict_get "scores" fd) as [[| | | | | |sd]|]; eauto.
    destruct (dict_get name sd); [discriminate | eauto].
Qed.

(** C6: each of the three sub-score extractors looks up
    [fitness], [scores] and its own name without any guard: it returns the
    stored value when the whole path is there, raises [KeyError] for the
    first key that a mapping on the path lacks, and raises in every case
    where the path is incomplete. *)
Theorem sub_score_extractors_unguarded (name : string)
    (f : json -> result json) (d : dict) :
  In (name, f) sub_score_extractors ->
  (forall v, lookup_path ["fitness"; "scores"; name] (JObj d) = Some v ->
             f (JObj d) = Ok v) /\
  (dict_get "fitness" d = None ->
   f (JObj d) = Raise (KeyError "fitness")) /\
  (forall fd, dict_get "fitness" d = Some (JObj fd) ->
              dict_get "scores" fd = None ->
              f (JObj d) = Raise (KeyError "scores")) /\
  (forall fd sd, dict_get "fitness" d = Some (JObj fd) ->
                 dict_get "scores" fd = Some (JObj sd) ->
                 dict_get name sd = None ->
                 f (JObj d) = Raise (KeyError name)) /\
  (lookup_path ["fitness"; "scores"; name] (JObj d) = None ->
   exists e, f (JObj d) = Raise e).
Proof.
  intros Hin. rewrite (sub_score_extractors_unfold name f Hin).
  apply sub_score_spec.
Qed.

Lemma sub_score_extractors_unguarded_witness :
  code_coverage_of_creature
    (JObj [("fitness", JObj [("scores", JObj [("code_coverage", JFloat 0.25)])])])
  = Ok (JFloat 0.25) /\
  mem_write_ratio_of_creature creature_2 = Raise (KeyError "fitness") /\
  mem_ratio_written_of_creature creature_1 = Raise (KeyError "scores").
Proof.
  split; [| split].
  - apply (proj1 (sub_score_extractors_unguarded "code_coverage"
                    code_coverage_of_creature
                    [("fitness", JObj [("scores", JObj [("code_coverage", JFloat 0.25)])])]
                    (or_intror (or_intror (or_introl eq_refl))))).
    reflexivity.
  - apply (proj1 (proj2 (sub_score_extractors_unguarded "mem_write_ratio"
                    mem_write_ratio_of_creature [("generation", JInt 2)]
                    (or_introl eq_refl)))).
    reflexivity.
  - apply (proj1 (proj2 (proj2 (sub_score_extractors_unguarded "mem_ratio_written"
                    mem_ratio_written_of_creature
                    [("generation", JInt 1);
                     ("fitness", JObj [("cached_scalar", JFloat 0.5)])]
                    (or_intror (or_introl eq_refl)))))
             [("cached_scalar", JFloat 0.5)]); reflexivity.
Defined.

(** ** Unbound names *)

Lemma glob_unbound (out : stdout) :
  load_global "glob" out = (Raise (NameError "glob"), out).
Proof. reflexivity. Qed.

(** C8: [glob] is not bound in the module, so [population_dirs],
    [dataframe_for_population] and [get_champions_for_population] raise
    [NameError] on every input, before anything is read or printed. *)
Theorem glob_never_imported (w : World) (out : stdout) :
  (forall population_name island,
     population_dirs w population_name island out
     = (Raise (NameError "glob"), out)) /\
  (forall pop_name col_1_name col_2_name col_1_func col_2_func,
     dataframe_for_population w pop_name col_1_name col_2_name
       col_1_func col_2_func out
     = (Raise (NameError "glob"), out)) /\
  (forall population,
     get_champions_for_population w population out
     = (Raise (NameError "glob"), out)).
Proof.
  split; [| split].
  - intros population_name [island |]; reflexivity.
  - reflexivity.
  - reflexivity.
Qed.

(** ** Reduction without an initial value *)

(** C9: a directory that holds no file makes [dataframe_for_dir] raise
    [TypeError], and so does the empty list of directories for
    [dataframe_for_dirs]; in both cases the (empty) list is printed first
    and no table is produced. *)
Theorem reduce_of_nothing_raises (w : World) (c1_name c2_name : string)
    (f1 f2 : json -> result json) (out : stdout) :
  (forall directory,
     os_walk_files w directory = Some [] ->
     dataframe_for_dir w directory c1_name c2_name f1 f2 out
     = (Raise TypeError, out ++ [PList []])) /\
  dataframe_for_dirs w [] c1_name c2_name f1 f2 out
  = (Raise TypeError, out ++ [PList []]).
Proof.
  split.
  - intros directory Hwalk.
    unfold dataframe_for_dir, files, bind. rewrite Hwalk. reflexivity.
  - reflexivity.
Qed.

Lemma reduce_of_nothing_raises_witness :
  dataframe_for_dir empty_dir_world "pop" "generation" "fitness"
    generation_of_creature fitness_of_creature []
  = (Raise TypeError, [PList []]).
Proof.
  apply (proj1 (reduce_of_nothing_raises empty_dir_world "generation" "fitness"
                  generation_of_creature fitness_of_creature []) "pop").
  reflexivity.
Defined.

(** A directory that cannot be scanned stops [files] itself. *)
Lemma files_of_missing_directory (w : World) (directory : string) (out : stdout) :
  os_walk_files w directory = None ->
  files w directory out = (Raise StopIteration, out).
Proof.
  intros H. unfold files. rewrite H. reflexivity.
Qed.

(** ** Population-level fitness scores *)

Lemma fitnesses_of_records (items : list json) :
  forallb is_record items = true ->
  fitnesses_of items = Ok (present_scalars items).
Proof.
  induction items as [| p rest IH]; intros Hrec; [reflexivity |].
  cbn [forallb] in Hrec. apply andb_prop in Hrec as [Hp Hrest].
  specialize (IH Hrest).
  cbn [fitnesses_of present_scalars lookup_path].
  destruct p as [| | | | | | d]; try discriminate.
  unfold py_in, py_getitem, rbind. cbn [is_record] in Hp.
  destruct (dict_get "fitness" d) as [[| | | | | | fd] |]; try discriminate.
  - destruct (dict_get "cached_scalar" fd) as [v |].
    + fold (fitnesses_of rest). rewrite IH. reflexivity.
    + exact IH.
  - exact IH.
Qed.

Lemma present_scalars_length (items : list json) :
  length (present_scalars items) <= length items.
Proof.
  induction items as [| p rest IH]; cbn [present_scalars length]; [lia |].
  destruct (lookup_path ["fitness"; "cached_scalar"] p); cbn [length]; lia.
Qed.

Lemma comprehension_length {A B} (f : A -> result B) (items : list A) (vs : list B) :
  comprehension f items = Ok vs -> length vs = length items.
Proof.
  revert vs. induction items as [| c rest IH]; intros vs H; cbn in H.
  - inversion H; reflexivity.
  - destruct (f c); [| discriminate]. cbn in H.
    destruct (comprehension f rest) as [vs' |]; [| discriminate].
    inversion H; subst. cbn. f_equal. apply IH. reflexivity.
Qed.

Lemma fitness_of_record (p : json) :
  is_record p = true ->
  fitness_of_creature p =
    Ok (match lookup_path ["fitness"; "cached_scalar"] p with
        | Some v => v
        | None => None_
        end).
Proof.
  destruct p as [| | | | | | d]; try discriminate.
  cbn [is_record lookup_path].
  unfold fitness_of_creature, py_in, py_getitem, rbind.
  destruct (dict_get "fitness" d) as [[| | | | | | fd] |]; try discriminate;
    intros _; [| reflexivity].
  destruct (dict_get "cached_scalar" fd); reflexivity.
Qed.

Lemma fitness_of_records (items : list json) :
  forallb is_record items = true ->
  exists vs, comprehension fitness_of_creature items = Ok vs.
Proof.
  induction items as [| p rest IH]; intros Hrec; [eexists; reflexivity |].
  cbn [forallb] in Hrec. apply andb_prop in Hrec as [Hp Hrest].
  destruct (IH Hrest) as [vs Hvs].
  cbn [comprehension]. rewrite (fitness_of_record p Hp), Hvs.
  eexists; reflexivity.
Qed.

(** C10 (amended): on a list of records that are mappings whose [fitness],
    when present, is a mapping, [fitness_scores_of_population] returns the
    [fitness.cached_scalar] values of exactly the records that have both
    keys, in their order, and skips the others without printing or raising;
    the same holds when the population is given by the path of its file.
    The result is never longer than the population and can be strictly
    shorter, while [fitness_of_creature] gives one value per record. *)
Theorem fitness_scores_of_population_spec :
  (forall (w : World) (items : list json) (out : stdout),
     forallb is_record items = true ->
     fitness_scores_of_population w (JArr items) out
     = (Ok (present_scalars items), out) /\
     (forall path, gzip_json_load w path = inr (JArr items) ->
        fitness_scores_of_population w (JStr path) out
        = (Ok (present_scalars items), out)) /\
     length (present_scalars items) <= length items /\
     exists vs, comprehension fitness_of_creature items = Ok vs /\
                length vs = length items) /\
  (exists items, forallb is_record items = true /\
                 length (present_scalars items) < length items).
Proof.
  split.
  - intros w items out Hrec. repeat split.
    + unfold fitness_scores_of_population, population_or_path, bind, ret, lift.
      cbn [py_iter rbind]. rewrite (fitnesses_of_records items Hrec). reflexivity.
    + intros path Hload.
      unfold fitness_scores_of_population, population_or_path, bind, lift.
      rewrite (load_population_success w path (JArr items) out Hload).
      cbn [py_iter rbind]. rewrite (fitnesses_of_records items Hrec). reflexivity.
    + apply present_scalars_length.
    + destruct (fitness_of_records items Hrec) as [vs Hvs].
      exists vs. split; [exact Hvs |].
      apply (comprehension_length _ _ _ Hvs).
  - exists [creature_1; creature_2]. split; [reflexivity | cbn; lia].
Qed.

Lemma fitness_scores_of_population_spec_witness :
  fitness_scores_of_population two_file_world (JArr [creature_1; creature_2]) []
  = (Ok [JFloat 0.5], []) /\
  fitness_scores_of_population two_file_world (JStr "pop/a.json.gz") []
  = (Ok [JFloat 0.5], []).
Proof.
  split.
  - apply (proj1 (proj1 fitness_scores_of_population_spec two_file_world
                    [creature_1; creature_2] [] eq_refl)).
  - apply (proj1 (proj2 (proj1 fitness_scores_of_population_spec two_file_world
                           [creature_1] [] eq_refl)) "pop/a.json.gz").
    reflexivity.
Defined.

(** C10 fails as stated on a population with a record whose [fitness] is
    JSON [null]: that record has no [fitness.cached_scalar] path, and it is
    not skipped, the call raises. *)
Lemma fitness_scores_null_fitness_counterexample :
  lookup_path ["fitness"; "cached_scalar"]
    (JObj [("generation", JInt 3); ("fitness", JNull)]) = None /\
  fitness_scores_of_population bare_world
    (JArr [creature_1; JObj [("generation", JInt 3); ("fitness", JNull)]]) []
  = (Raise TypeError, []) /\
  fitness_scores_of_population bare_world
    (JArr [creature_1; JObj [("generation", JInt 3); ("fitness", JNull)]]) []
  <> (Ok [JFloat 0.5], []).
Proof. repeat split. discriminate. Qed.

(** ** Table assembly *)

Lemma load_population_run (w : World) (path : string) (out : stdout) :
  load_population w path out = (Ok (loaded w path), out ++ load_log w path).
Proof.
  unfold load_population, loaded, load_log.
  destruct (gzip_json_load w path) as [e | v].
  - reflexivity.
  - unfold ret. rewrite app_nil_r. reflexivity.
Qed.

Lemma table2_distinct (c1 c2 : string) (col1 col2 : list json) :
  c1 <> c2 -> table2 c1 c2 col1 col2 = [(c1, col1); (c2, col2)].
Proof.
  intros Hne. unfold table2. cbn [data_set].
  destruct (String.eqb_spec c2 c1) as [E | _]; [congruence | reflexivity].
Qed.

Lemma table2_same (c : string) (col1 col2 : list json) :
  table2 c c col1 col2 = [(c, col2)].
Proof.
  unfold table2. cbn [data_set]. rewrite String.eqb_refl. reflexivity.
Qed.

Lemma pd_DataFrame_table2 (w : World) (c1 c2 : string) (col1 col2 : list json) :
  length col1 = length col2 ->
  pd_DataFrame w (table2 c1 c2 col1 col2)
  = Ok (table2 c1 c2 (map (pd_cell w col1) col1) (map (pd_cell w col2) col2)).
Proof.
  intros Hlen. unfold pd_DataFrame, table2. cbn [data_set].
  destruct (String.eqb c2 c1); cbn [df_nrows same_length].
  - rewrite Nat.eqb_refl. reflexivity.
  - rewrite Nat.eqb_refl, <- Hlen, Nat.eqb_refl. reflexivity.
Qed.

Lemma append_table2 (w : World) (c1 c2 : string) (a1 a2 b1 b2 : list json) :
  DataFrame_append w (table2 c1 c2 a1 a2) (table2 c1 c2 b1 b2)
  = table2 c1 c2 (map (pd_concat_cell w a1 b1) (a1 ++ b1))
                 (map (pd_concat_cell w a2 b2) (a2 ++ b2)).
Proof.
  destruct (String.eqb_spec c1 c2) as [E | Hne].
  - subst c2. rewrite !table2_same.
    unfold DataFrame_append, col_or_nan, has_col.
    cbn [df_columns map df_col filter app].
    rewrite !String.eqb_refl. reflexivity.
  - rewrite !table2_distinct by assumption.
    assert (E21 : String.eqb c2 c1 = false).
    { apply String.eqb_neq. congruence. }
    unfold DataFrame_append, col_or_nan, has_col.
    cbn [df_columns map df_col filter app fst].
    rewrite !String.eqb_refl, !E21. reflexivity.
Qed.

Lemma comprehension_map {A B} (f : A -> result B) (g : A -> B) (items : list A) :
  (forall c, In c items -> f c = Ok (g c)) ->
  comprehension f items = Ok (map g items).
Proof.
  induction items as [| c rest IH]; intros Hf; [reflexivity |].
  cbn [comprehension map].
  rewrite (Hf c (or_introl eq_refl)). cbn [rbind].
  rewrite IH; [reflexivity |].
  intros c' Hin. apply Hf. right. exact Hin.
Qed.

Lemma in_generator_ok {A} (m : M A) (out out' : stdout) (a : A) :
  m out = (Ok a, out') -> in_generator m out = (Ok a, out').
Proof.
  intros H. unfold in_generator. rewrite H. reflexivity.
Qed.

Lemma Forall2_map_right {A B} (R : A -> B -> Prop) (f : B -> B)
    (xs : list A) (ys : list B) :
  (forall x y, R x y -> R x (f y)) ->
  Forall2 R xs ys -> Forall2 R xs (map f ys).
Proof.
  intros Hf. induction 1 as [| x y xs ys Hxy _ IH]; cbn [map]; constructor;
    auto.
Qed.

Lemma extracts_app (f1 f2 : json -> result json) (g1 g2 : json -> json)
    (xs ys : list json) :
  extracts f1 f2 g1 g2 (xs ++ ys) ->
  extracts f1 f2 g1 g2 xs /\ extracts f1 f2 g1 g2 ys.
Proof.
  intros H. split; intros c Hc; apply H; apply in_or_app; auto.
Qed.

(** The relation that holds of any value and any cell: it keeps track of
    the number of cells only. *)
Lemma any_cell_kept (w : World) : kept_by_pandas w (fun _ _ => True).
Proof. split; auto. Qed.

Lemma stored_as_refl (v : json) : stored_as v v.
Proof. left. reflexivity. Qed.

Lemma stored_as_trans (v c c' : json) :
  stored_as v c -> stored_as c c' -> stored_as v c'.
Proof.
  intros [-> | [[-> ->] | (n & -> & ->)]] Hc; [exact Hc | |].
  - destruct Hc as [-> | [[H _] | (n & H & _)]]; try discriminate.
    right. left. split; reflexivity.
  - destruct Hc as [-> | [[H _] | (m & H & _)]]; try discriminate.
    right. right. exists n. split; reflexivity.
Qed.

Lemma stored_as_kept (w : World) :
  pandas_coerces w -> kept_by_pandas w stored_as.
Proof.
  intros [Hcell Hconcat]. split.
  - exact Hcell.
  - intros a b v0 v Hv. apply (stored_as_trans v0 v); [exact Hv | apply Hconcat].
Qed.

Lemma stored_as_float (x : float) (c : json) :
  stored_as (JFloat x) c -> c = JFloat x.
Proof.
  intros [-> | [[H _] | (n & H & _)]]; [reflexivity | discriminate ..].
Qed.

Lemma stored_as_none (c : json) :
  stored_as None_ c -> c = None_ \/ c = JFloat nan.
Proof.
  intros [-> | [[_ ->] | (n & H & _)]]; [left | right | discriminate];
    reflexivity.
Qed.

Lemma stored_as_int (n : Z) (c : json) :
  stored_as (JInt n) c -> c = JInt n \/ c = JFloat (float_of_Z n).
Proof.
  intros [-> | [[H _] | (m & H & ->)]]; [left; reflexivity | discriminate |].
  inversion H; subst. right. reflexivity.
Qed.

Lemma to_float_stored (v : json) : stored_as v (to_float v).
Proof.
  destruct v; cbn [to_float]; try apply stored_as_refl.
  - right. left. split; reflexivity.
  - right. right. eexists. split; reflexivity.
Qed.

(** The sample pandas converts cells in the three ways only. *)
Lemma sample_pandas_coerces (w : World) :
  pd_cell w = pandas_cell ->
  pd_concat_cell w = pandas_concat_cell ->
  pandas_coerces w.
Proof.
  intros Hc Hcc. unfold pandas_coerces. rewrite Hc, Hcc. split.
  - intros col v. unfold pandas_cell.
    destruct (_ && _); [apply to_float_stored | apply stored_as_refl].
  - intros a b v. unfold pandas_concat_cell.
    destruct (_ && _); [apply to_float_stored | apply stored_as_refl].
Qed.

Section Assembly.

Variable w : World.
Variables c1_name c2_name : string.
Variables f1 f2 : json -> result json.
Variables g1 g2 : json -> json.
Variable R : json -> json -> Prop.
Hypothesis R_kept : kept_by_pandas w R.

Local Abbreviation extracted := (extracts f1 f2 g1 g2).
Local Abbreviation table_for := (assembled R c1_name c2_name g1 g2).
Local Abbreviation build :=
  (fun path => build_dataframe w path c1_name c2_name f1 f2).

Lemma Forall2_built (col vs : list json) :
  Forall2 R vs (map (pd_cell w col) vs).
Proof.
  induction vs as [| v vs IH]; cbn [map]; constructor;
    [apply (proj1 R_kept) | exact IH].
Qed.

Lemma build_dataframe_run (path : string) (cs : list json) (out : stdout) :
  py_iter (loaded w path) = Ok cs ->
  extracted cs ->
  exists df,
    build_dataframe w path c1_name c2_name f1 f2 out
    = (Ok df, out ++ load_log w path) /\
    table_for cs df.
Proof.
  intros Hiter Hex.
  unfold build_dataframe, bind, lift.
  rewrite load_population_run, Hiter. cbn [rbind].
  rewrite (comprehension_map f1 g1 cs) by (intros c Hc; apply (Hex c Hc)).
  rewrite (comprehension_map f2 g2 cs) by (intros c Hc; apply (Hex c Hc)).
  cbv zeta. fold (table2 c1_name c2_name (map g1 cs) (map g2 cs)).
  rewrite pd_DataFrame_table2 by (rewrite !length_map; reflexivity).
  eexists. split; [reflexivity |].
  do 2 eexists. split; [reflexivity |]. split; apply Forall2_built.
Qed.

Lemma assembled_append (xs ys : list json) (a b : DataFrame) :
  table_for xs a -> table_for ys b ->
  table_for (xs ++ ys) (DataFrame_append w a b).
Proof.
  intros (a1 & a2 & -> & Ha1 & Ha2) (b1 & b2 & -> & Hb1 & Hb2).
  rewrite append_table2.
  do 2 eexists. split; [reflexivity |].
  split.
  - rewrite (map_app g1). apply Forall2_map_right; [apply (proj2 R_kept) |].
    apply Forall2_app; assumption.
  - rewrite (map_app g2). apply Forall2_map_right; [apply (proj2 R_kept) |].
    apply Forall2_app; assumption.
Qed.

Lemma reduce_from_run (paths : list string) (pops : list (list json)) :
  Forall2 (fun path cs => py_iter (loaded w path) = Ok cs) paths pops ->
  forall (acc_cs : list json) (acc : DataFrame) (out : stdout),
    table_for acc_cs acc ->
    extracted (concat pops) ->
    exists df,
      reduce_from (DataFrame_append w) build acc paths out
      = (Ok df, out ++ flat_map (load_log w) paths) /\
      table_for (acc_cs ++ concat pops) df.
Proof.
  induction 1 as [| path cs paths pops Hiter _ IH]; intros acc_cs acc out Hacc Hex.
  - exists acc. cbn. rewrite !app_nil_r. split; [reflexivity | exact Hacc].
  - cbn [concat] in Hex. apply extracts_app in Hex as [Hcs Hrest].
    destruct (build_dataframe_run path cs out Hiter Hcs) as (t & Hrun & Ht).
    cbn [reduce_from]. unfold bind.
    rewrite (in_generator_ok _ _ _ _ Hrun).
    destruct (IH (acc_cs ++ cs) (DataFrame_append w acc t)
                 (out ++ load_log w path) (assembled_append _ _ _ _ Hacc Ht)
                 Hrest) as (df & Hdf & Hall).
    exists df. rewrite Hdf. cbn [concat flat_map].
    rewrite <- !app_assoc in *. split; [reflexivity | exact Hall].
Qed.

Lemma dataframe_for_dir_run (directory : string) (names : list string)
    (pops : list (list json)) (out : stdout) :
  os_walk_files w directory = Some names ->
  names <> [] ->
  Forall2 (fun path cs => py_iter (loaded w path) = Ok cs)
          (dir_paths directory names) pops ->
  extracted (concat pops) ->
  exists df,
    dataframe_for_dir w directory c1_name c2_name f1 f2 out
    = (Ok df, out ++ dir_log w directory names) /\
    table_for (concat pops) df.
Proof.
  intros Hwalk Hne Hload Hex.
  unfold dataframe_for_dir, files, bind. rewrite Hwalk.
  unfold print, ret. fold (dir_paths directory names).
  unfold dir_log.
  destruct names as [| name names]; [congruence |].
  cbn [dir_paths map] in *.
  inversion Hload as [| path cs paths pops' Hiter Hrest]; subst.
  cbn [concat] in Hex. apply extracts_app in Hex as [Hcs Hex'].
  destruct (build_dataframe_run _ cs (out ++ [PList (os_path_join directory name
              :: map (os_path_join directory) names)]) Hiter Hcs)
    as (t & Hrun & Ht).
  cbn [reduce_gen]. unfold bind.
  rewrite (in_generator_ok _ _ _ _ Hrun).
  match goal with
  | |- context [reduce_from _ _ t _ ?o] =>
      destruct (reduce_from_run _ pops' Hrest cs t o Ht Hex')
        as (df & Hdf & Hall)
  end.
  exists df. rewrite Hdf. cbn [concat flat_map].
  rewrite <- !app_assoc. split; [reflexivity | exact Hall].
Qed.

Lemma fold_left_append_tables (contents : list (list (list json)))
    (tables : list DataFrame) :
  Forall2 (fun pops t => table_for (concat pops) t) contents tables ->
  forall (acc_cs : list json) (acc : DataFrame),
    table_for acc_cs acc ->
    table_for (acc_cs ++ concat (concat contents))
              (fold_left (DataFrame_append w) tables acc).
Proof.
  induction 1 as [| pops t contents tables Ht _ IH]; intros acc_cs acc Hacc.
  - cbn. rewrite app_nil_r. exact Hacc.
  - cbn [fold_left concat]. rewrite concat_app, app_assoc.
    apply IH. apply assembled_append; assumption.
Qed.

Lemma comprehensionM_dirs (dirs : list string)
    (contents : list (list (list json))) :
  Forall2 (dir_loads w) dirs contents ->
  extracted (concat (concat contents)) ->
  forall out, exists tables out',
    comprehensionM
      (fun d => dataframe_for_dir w d c1_name c2_name f1 f2) dirs out
    = (Ok tables, out') /\
    Forall2 (fun pops t => table_for (concat pops) t) contents tables.
Proof.
  induction 1 as [| d pops dirs contents Hd _ IH]; intros Hex out.
  - exists [], out. split; [reflexivity | constructor].
  - cbn [concat] in Hex. rewrite concat_app in Hex.
    apply extracts_app in Hex as [Hpops Hrest].
    destruct Hd as (names & Hwalk & Hne & Hload).
    destruct (dataframe_for_dir_run d names pops out Hwalk Hne Hload Hpops)
      as (t & Hrun & Ht).
    destruct (IH Hrest (out ++ dir_log w d names)) as (tables & out' & Hruns & Hts).
    exists (t :: tables), out'.
    cbn [comprehensionM]. unfold bind. rewrite Hrun, Hruns.
    split; [reflexivity | constructor; assumption].
Qed.

Lemma dataframe_for_dirs_run (dirs : list string)
    (contents : list (list (list json))) (out : stdout) :
  dirs <> [] ->
  Forall2 (dir_loads w) dirs contents ->
  extracted (concat (concat contents)) ->
  exists df out',
    dataframe_for_dirs w dirs c1_name c2_name f1 f2 out = (Ok df, out') /\
    table_for (concat (concat contents)) df.
Proof.
  intros Hne Hdirs Hex.
  unfold dataframe_for_dirs, bind, print.
  destruct (comprehensionM_dirs dirs contents Hdirs Hex (out ++ [PList dirs]))
    as (tables & out' & Hrun & Hts).
  rewrite Hrun.
  destruct Hts as [| pops t contents tables Ht Hts].
  - inversion Hdirs; subst; congruence.
  - cbn [reduce lift].
    exists (fold_left (DataFrame_append w) tables t), out'.
    split; [reflexivity |].
    cbn [concat]. rewrite concat_app.
    apply (fold_left_append_tables contents tables Hts _ _ Ht).
Qed.

End Assembly.

(** *** Rows of an assembled table *)

Lemma df_rows_two_columns (c1 c2 : string) (col1 col2 : list json) :
  df_rows [(c1, col1); (c2, col2)] = zip_cons col1 (map (fun x => [x]) col2).
Proof. reflexivity. Qed.

Lemma zip_cons_Forall2 {A} (R : json -> json -> Prop) (h1 h2 : A -> json)
    (cs : list A) (col1 col2 : list json) :
  Forall2 R (map h1 cs) col1 ->
  Forall2 R (map h2 cs) col2 ->
  Forall2 (fun c row => Forall2 R [h1 c; h2 c] row) cs
          (zip_cons col1 (map (fun x => [x]) col2)).
Proof.
  revert col1 col2. induction cs as [| c cs IH]; intros col1 col2 H1 H2;
    inversion H1; inversion H2; subst; cbn; constructor.
  - repeat constructor; assumption.
  - apply IH; assumption.
Qed.

Lemma zip_cons_rows_app (R : json -> json -> Prop)
    (x1 x2 y1 y2 z1 z2 : list json) :
  length x1 = length x2 -> length y1 = length y2 ->
  Forall2 R (x1 ++ y1) z1 -> Forall2 R (x2 ++ y2) z2 ->
  Forall2 (Forall2 R)
          (zip_cons x1 (map (fun x => [x]) x2) ++
           zip_cons y1 (map (fun x => [x]) y2))
          (zip_cons z1 (map (fun x => [x]) z2)).
Proof.
  revert x2 z1 z2.
  induction x1 as [| a x1 IH]; intros [| b x2] z1 z2 Hx Hy H1 H2;
    try discriminate.
  - cbn [app] in *. clear Hx. revert y2 z1 z2 Hy H1 H2.
    induction y1 as [| a y1 IHy]; intros [| b y2] z1 z2 Hy H1 H2;
      try discriminate; inversion H1; inversion H2; subst; cbn; constructor.
    + repeat constructor; assumption.
    + apply IHy; [cbn in Hy; lia | assumption ..].
  - cbn [app] in *. inversion H1; inversion H2; subst. cbn. constructor.
    + repeat constructor; assumption.
    + apply IH; [cbn in Hx; lia | assumption ..].
Qed.

Section AssembledRows.

Variables c1_name c2_name : string.
Variables g1 g2 : json -> json.
Variable R : json -> json -> Prop.

Lemma assembled_nrows (cs : list json) (df : DataFrame) :
  assembled R c1_name c2_name g1 g2 cs df -> df_nrows df = length cs.
Proof.
  intros (col1 & col2 & -> & H1 & H2).
  apply Forall2_length in H1, H2. rewrite length_map in H1, H2.
  unfold table2. cbn [data_set].
  destruct (String.eqb c2_name c1_name); cbn [df_nrows]; congruence.
Qed.

Lemma assembled_rows (cs : list json) (df : DataFrame) :
  assembled R c1_name c2_name g1 g2 cs df ->
  Forall2 (fun c row => Forall2 R (row_cells c1_name c2_name (g1 c) (g2 c)) row)
          cs (df_rows df).
Proof.
  intros (col1 & col2 & -> & H1 & H2).
  unfold table2, row_cells. cbn [data_set].
  destruct (String.eqb c2_name c1_name).
  - cbn [df_rows]. clear H1. revert col2 H2.
    induction cs as [| c cs IH]; intros col2 H2; inversion H2; subst; cbn;
      constructor; [repeat constructor; assumption | apply IH; assumption].
  - rewrite df_rows_two_columns. apply zip_cons_Forall2; assumption.
Qed.

Lemma assembled_two_columns (cs : list json) (df : DataFrame) :
  c1_name <> c2_name ->
  assembled R c1_name c2_name g1 g2 cs df ->
  two_column_table R c1_name c2_name g1 g2 cs df.
Proof.
  intros Hne Hdf.
  pose proof (assembled_rows cs df Hdf) as Hrows.
  destruct Hdf as (col1 & col2 & -> & H1 & H2).
  assert (E21 : String.eqb c2_name c1_name = false).
  { apply String.eqb_neq. congruence. }
  unfold row_cells in Hrows. rewrite E21 in Hrows.
  rewrite table2_distinct in * by assumption.
  pose proof (Forall2_length H1) as L1. pose proof (Forall2_length H2) as L2.
  rewrite length_map in L1, L2.
  split; [reflexivity |]. split; [| split].
  - exists col1, col2. cbn [df_col].
    rewrite !String.eqb_refl, E21. repeat split; congruence.
  - symmetry. apply (Forall2_length Hrows).
  - intros i c Hi. clear - Hrows Hi. revert i Hi.
    induction Hrows as [| c' row cs rows Hrow _ IH]; intros [| i] Hi;
      try discriminate.
    + cbn in Hi. inversion Hi; subst.
      inversion Hrow as [| ? x ? r' Hx Hr']; subst.
      inversion Hr' as [| ? y ? r'' Hy Hr'']; subst.
      inversion Hr''; subst. exists x, y. repeat split; assumption.
    + cbn in Hi |- *. apply IH. exact Hi.
Qed.

End AssembledRows.

(** *** Statements about [dataframe_for_dir] and [dataframe_for_dirs] *)

Lemma Forall2_dir_paths (w : World) (directory : string) (names : list string)
    (pops : list (list json)) :
  Forall2 (fun name cs => loaded w (os_path_join directory name) = JArr cs)
          names pops ->
  Forall2 (fun path cs => py_iter (loaded w path) = Ok cs)
          (dir_paths directory names) pops.
Proof.
  induction 1 as [| name cs names pops Hload _ IH]; cbn [dir_paths map].
  - constructor.
  - constructor; [rewrite Hload; reflexivity | exact IH].
Qed.

Lemma run_table_unique {A} (r : result A * stdout) (x y : A) (o o' : stdout) :
  r = (Ok x, o) -> r = (Ok y, o') -> x = y.
Proof. intros -> H. inversion H. reflexivity. Qed.

(** C3 (amended): for a directory in which [files] finds at least one file,
    file [i] holding an array of [n_i] records (an unreadable file counting
    as the empty array), and extractors that return a value on every
    record, [dataframe_for_dir] yields one table; it has as many rows as
    there are records in all files together, and its rows are those of the
    records in file enumeration order and, within a file, in record order:
    row [i] holds the values extracted from the [i]-th record, each as
    pandas stores it. *)
Theorem dataframe_for_dir_row_count (w : World)
    (directory c1_name c2_name : string) (f1 f2 : json -> result json)
    (g1 g2 : json -> json) (names : list string) (pops : list (list json))
    (out : stdout) :
  os_walk_files w directory = Some names ->
  names <> [] ->
  Forall2 (fun name cs => loaded w (os_path_join directory name) = JArr cs)
          names pops ->
  extracts f1 f2 g1 g2 (concat pops) ->
  exists df out',
    dataframe_for_dir w directory c1_name c2_name f1 f2 out = (Ok df, out') /\
    df_nrows df = list_sum (map (@length json) pops) /\
    length (df_rows df) = list_sum (map (@length json) pops) /\
    (pandas_coerces w ->
     Forall2 (fun c row =>
                row_holds (row_cells c1_name c2_name (g1 c) (g2 c)) row)
             (concat pops) (df_rows df)).
Proof.
  intros Hwalk Hne Hload Hex.
  apply Forall2_dir_paths in Hload.
  destruct (dataframe_for_dir_run w c1_name c2_name f1 f2 g1 g2 _
              (any_cell_kept w) directory names pops out Hwalk Hne Hload Hex)
    as (df & Hrun & Hdf).
  exists df, (out ++ dir_log w directory names).
  split; [exact Hrun |]. split; [| split].
  - rewrite (assembled_nrows _ _ _ _ _ _ _ Hdf). apply length_concat.
  - rewrite <- (Forall2_length (assembled_rows _ _ _ _ _ _ _ Hdf)).
    apply length_concat.
  - intros Hpd.
    destruct (dataframe_for_dir_run w c1_name c2_name f1 f2 g1 g2 _
                (stored_as_kept w Hpd) directory names pops out
                Hwalk Hne Hload Hex) as (df' & Hrun' & Hdf').
    rewrite (run_table_unique _ _ _ _ _ Hrun Hrun').
    apply (assembled_rows _ _ _ _ _ _ _ Hdf').
Qed.

Lemma dataframe_for_dir_row_count_witness :
  exists df out',
    dataframe_for_dir two_file_world "pop" "generation" "fitness"
      generation_of_creature fitness_of_creature [] = (Ok df, out') /\
    df_nrows df = 2 /\
    length (df_rows df) = 2 /\
    (pandas_coerces two_file_world ->
     Forall2 (fun c row =>
                row_holds (row_cells "generation" "fitness"
                             (or_none generation_of_creature c)
                             (or_none fitness_of_creature c)) row)
             [creature_1; creature_2] (df_rows df)).
Proof.
  apply (dataframe_for_dir_row_count two_file_world "pop" "generation" "fitness"
           generation_of_creature fitness_of_creature
           (or_none generation_of_creature) (or_none fitness_of_creature)
           ["a.json.gz"; "b.json.gz"] [[creature_1]; [creature_2]] []).
  - reflexivity.
  - discriminate.
  - repeat constructor.
  - intros c [<- | [<- | []]]; split; reflexivity.
Defined.

(** C3 fails as stated on a directory with [k = 0] files: no table with
    zero rows is produced, the call raises. *)
Lemma dataframe_for_dir_no_files_counterexample :
  os_walk_files empty_dir_world "pop" = Some [] /\
  ~ exists df out',
      dataframe_for_dir empty_dir_world "pop" "generation" "fitness"
        generation_of_creature fitness_of_creature [] = (Ok df, out') /\
      df_nrows df = list_sum (map (@length json) []).
Proof.
  split; [reflexivity |].
  intros (df & out' & Hrun & _). vm_compute in Hrun. discriminate.
Qed.

(** C4 (amended): when the directory lists two files, the first holding
    [[{"generation":1,"fitness":{"cached_scalar":0.5}}]] and the second
    [[{"generation":2}]], the table assembled with the generation and
    fitness extractors has exactly two rows, [(1, 0.5)] then [(2, absent)],
    each value as pandas stores it: the generations as the integers or
    the equal floats, the absent fitness as [None] or NaN. *)
Theorem two_file_scenario (w : World) (directory a b : string) (out : stdout) :
  os_walk_files w directory = Some [a; b] ->
  gzip_json_load w (os_path_join directory a) = inr (JArr [creature_1]) ->
  gzip_json_load w (os_path_join directory b) = inr (JArr [creature_2]) ->
  pandas_coerces w ->
  exists df,
    dataframe_for_dir w directory "generation" "fitness"
      generation_of_creature fitness_of_creature out
    = (Ok df, out ++ [PList [os_path_join directory a; os_path_join directory b]]) /\
    scenario_rows (df_rows df).
Proof.
  intros Hwalk Ha Hb Hpd.
  destruct (dataframe_for_dir_run w "generation" "fitness"
              generation_of_creature fitness_of_creature
              (or_none generation_of_creature) (or_none fitness_of_creature)
              _ (stored_as_kept w Hpd) directory [a; b]
              [[creature_1]; [creature_2]] out Hwalk)
    as (df & Hrun & col1 & col2 & Hdf & H1 & H2).
  - discriminate.
  - cbn [dir_paths map]. unfold loaded.
    repeat constructor; [rewrite Ha | rewrite Hb]; reflexivity.
  - intros c [<- | [<- | []]]; split; reflexivity.
  - exists df. split.
    + rewrite Hrun. unfold dir_log, load_log. cbn [dir_paths map flat_map].
      rewrite Ha, Hb. reflexivity.
    + cbn in H1, H2.
      inversion H1 as [| ? gen1 ? r1 Hg1 Hr1]; subst.
      inversion Hr1 as [| ? gen2 ? r2 Hg2 Hr2]; subst. inversion Hr2; subst.
      inversion H2 as [| ? fit1 ? s1 Hf1 Hs1]; subst.
      inversion Hs1 as [| ? fit2 ? s2 Hf2 Hs2]; subst. inversion Hs2; subst.
      apply stored_as_float in Hf1. subst fit1.
      exists gen1, gen2, fit2. split; [reflexivity |].
      split; [apply (stored_as_int 1 gen1 Hg1) |].
      split; [apply (stored_as_int 2 gen2 Hg2) |].
      apply stored_as_none. exact Hf2.
Qed.

Lemma two_file_scenario_witness :
  exists df,
    dataframe_for_dir two_file_world "pop" "generation" "fitness"
      generation_of_creature fitness_of_creature []
    = (Ok df, [PList ["pop/a.json.gz"; "pop/b.json.gz"]]) /\
    scenario_rows (df_rows df).
Proof.
  apply (two_file_scenario two_file_world "pop" "a.json.gz" "b.json.gz" []);
    try reflexivity.
  apply sample_pandas_coerces; reflexivity.
Defined.

(** C4 fails as stated when the directory lists the file with generation 2
    first: the directory holds exactly the two files of the scenario and
    the rows come out in the other order. *)
Lemma two_file_scenario_order_counterexample :
  os_walk_files swapped_file_world "pop" = Some ["b.json.gz"; "a.json.gz"] /\
  gzip_json_load swapped_file_world "pop/a.json.gz" = inr (JArr [creature_1]) /\
  gzip_json_load swapped_file_world "pop/b.json.gz" = inr (JArr [creature_2]) /\
  exists df out',
    dataframe_for_dir swapped_file_world "pop" "generation" "fitness"
      generation_of_creature fitness_of_creature [] = (Ok df, out') /\
    df_rows df = [[JInt 2; JFloat nan]; [JInt 1; JFloat 0.5]] /\
    ~ scenario_rows (df_rows df).
Proof.
  do 3 (split; [reflexivity |]).
  do 2 eexists. split; [vm_compute; reflexivity |].
  split; [reflexivity |].
  intros (gen1 & gen2 & fit2 & Hrows & [Hg | Hg] & _);
    cbn in Hrows; inversion Hrows; subst; discriminate.
Qed.

(** The rows follow the order in which the directory lists its files. *)
Lemma two_file_scenario_other_order (w : World) (directory a b : string)
    (out : stdout) :
  os_walk_files w directory = Some [b; a] ->
  gzip_json_load w (os_path_join directory a) = inr (JArr [creature_1]) ->
  gzip_json_load w (os_path_join directory b) = inr (JArr [creature_2]) ->
  pandas_coerces w ->
  exists df out',
    dataframe_for_dir w directory "generation" "fitness"
      generation_of_creature fitness_of_creature out = (Ok df, out') /\
    Forall2 row_holds [[JInt 2; None_]; [JInt 1; JFloat 0.5]] (df_rows df).
Proof.
  intros Hwalk Ha Hb Hpd.
  destruct (dataframe_for_dir_run w "generation" "fitness"
              generation_of_creature fitness_of_creature
              (or_none generation_of_creature) (or_none fitness_of_creature)
              _ (stored_as_kept w Hpd) directory [b; a]
              [[creature_2]; [creature_1]] out Hwalk)
    as (df & Hrun & Hdf).
  - discriminate.
  - cbn [dir_paths map]. unfold loaded.
    repeat constructor; [rewrite Hb | rewrite Ha]; reflexivity.
  - intros c [<- | [<- | []]]; split; reflexivity.
  - exists df, (out ++ dir_log w directory [b; a]). split; [exact Hrun |].
    pose proof (assembled_rows _ _ _ _ _ _ _ Hdf) as Hrows.
    cbn [concat app] in Hrows.
    inversion Hrows as [| ? r1 ? rs1 Hr1 Hrs1]; subst.
    inversion Hrs1 as [| ? r2 ? rs2 Hr2 Hrs2]; subst.
    inversion Hrs2; subst.
    constructor; [exact Hr1 |]. constructor; [exact Hr2 | constructor].
Qed.

Lemma Forall2_converted (w : World) (a b cells : list json) :
  pandas_coerces w ->
  Forall2 stored_as cells (map (pd_concat_cell w a b) cells).
Proof.
  intros [_ Hconcat].
  induction cells as [| v cells IH]; cbn [map]; constructor;
    [apply Hconcat | exact IH].
Qed.

(** C7 (amended): with two distinct column names, appending one two-column
    table to another keeps the column names and gives the rows of the
    first followed by the rows of the second, none dropped, duplicated or
    moved, each cell holding the value it held before as pandas stores it
    in the joint column; the table [dataframe_for_dir] assembles from the
    files of a directory, and the table [dataframe_for_dirs] assembles
    from a set of directories, has the two named columns, of equal length,
    one row per input creature, and row [i] holds the two values extracted
    from the [i]-th creature in directory, file and record order, each as
    pandas stores it ([None] possibly as NaN, an integer possibly as the
    nearest float). *)
Theorem assembled_table_invariant (w : World) (c1_name c2_name : string)
    (f1 f2 : json -> result json) (g1 g2 : json -> json) :
  c1_name <> c2_name ->
  pandas_coerces w ->
  (forall x1 x2 y1 y2 : list json,
     length x1 = length x2 -> length y1 = length y2 ->
     let a := [(c1_name, x1); (c2_name, x2)] in
     let b := [(c1_name, y1); (c2_name, y2)] in
     df_columns (DataFrame_append w a b) = [c1_name; c2_name] /\
     Forall2 row_holds (df_rows a ++ df_rows b)
             (df_rows (DataFrame_append w a b))) /\
  (forall directory pops out,
     dir_loads w directory pops ->
     extracts f1 f2 g1 g2 (concat pops) ->
     exists df out',
       dataframe_for_dir w directory c1_name c2_name f1 f2 out = (Ok df, out') /\
       two_column_table stored_as c1_name c2_name g1 g2 (concat pops) df) /\
  (forall dirs contents out,
     dirs <> [] ->
     Forall2 (dir_loads w) dirs contents ->
     extracts f1 f2 g1 g2 (concat (concat contents)) ->
     exists df out',
       dataframe_for_dirs w dirs c1_name c2_name f1 f2 out = (Ok df, out') /\
       two_column_table stored_as c1_name c2_name g1 g2
         (concat (concat contents)) df).
Proof.
  intros Hne Hpd. split; [| split].
  - intros x1 x2 y1 y2 Hx Hy a b. subst a b.
    rewrite <- !(table2_distinct c1_name c2_name) by assumption.
    rewrite append_table2, !table2_distinct by assumption.
    split; [reflexivity |].
    rewrite !df_rows_two_columns.
    apply zip_cons_rows_app; auto using Forall2_converted.
  - intros directory pops out (names & Hwalk & Hnames & Hload) Hex.
    destruct (dataframe_for_dir_run w c1_name c2_name f1 f2 g1 g2 _
                (stored_as_kept w Hpd) directory names pops out
                Hwalk Hnames Hload Hex) as (df & Hrun & Hdf).
    exists df, (out ++ dir_log w directory names).
    split; [exact Hrun |].
    apply assembled_two_columns; assumption.
  - intros dirs contents out Hdirs Hload Hex.
    destruct (dataframe_for_dirs_run w c1_name c2_name f1 f2 g1 g2 _
                (stored_as_kept w Hpd) dirs contents out Hdirs Hload Hex)
      as (df & out' & Hrun & Hdf).
    exists df, out'. split; [exact Hrun |].
    apply assembled_two_columns; assumption.
Qed.

Lemma two_file_world_pop_loads :
  dir_loads two_file_world "pop" [[creature_1]; [creature_2]].
Proof.
  exists ["a.json.gz"; "b.json.gz"].
  split; [reflexivity |]. split; [discriminate |].
  repeat constructor.
Defined.

Lemma assembled_table_invariant_witness :
  exists df out',
    dataframe_for_dirs two_file_world ["pop"] "generation" "fitness"
      generation_of_creature fitness_of_creature [] = (Ok df, out') /\
    two_column_table stored_as "generation" "fitness"
      (or_none generation_of_creature) (or_none fitness_of_creature)
      [creature_1; creature_2] df.
Proof.
  assert (Hne : "generation" <> "fitness") by discriminate.
  assert (Hpd : pandas_coerces two_file_world).
  { apply sample_pandas_coerces; reflexivity. }
  apply (proj2 (proj2 (assembled_table_invariant two_file_world
                         "generation" "fitness"
                         generation_of_creature fitness_of_creature
                         (or_none generation_of_creature)
                         (or_none fitness_of_creature) Hne Hpd))
           ["pop"] [[[creature_1]; [creature_2]]] []).
  - discriminate.
  - constructor; [exact two_file_world_pop_loads | constructor].
  - intros c [<- | [<- | []]]; split; reflexivity.
Defined.

(** C7 fails as stated where pandas converts a value: in a float column a
    missing fitness is held as NaN, so the second row of the table for a
    file with the two creatures is not the pair of the extracted values
    [(2, None)]. *)
Lemma assembled_cells_counterexample :
  exists df out',
    dataframe_for_dirs one_file_world ["pop"] "generation" "fitness"
      generation_of_creature fitness_of_creature [] = (Ok df, out') /\
    nth_error [creature_1; creature_2] 1 = Some creature_2 /\
    generation_of_creature creature_2 = Ok (JInt 2) /\
    fitness_of_creature creature_2 = Ok None_ /\
    nth_error (df_rows df) 1 = Some [JInt 2; JFloat nan] /\
    nth_error (df_rows df) 1 <> Some [JInt 2; None_].
Proof.
  do 2 eexists. split; [vm_compute; reflexivity |].
  repeat split. discriminate.
Qed.

(** * Further properties *)

(** ** Population-level extractors *)

Lemma comprehension_Forall2 {A B} (f : A -> result B) (items : list A)
    (vs : list B) :
  Forall2 (fun c v => f c = Ok v) items vs ->
  comprehension f items = Ok vs.
Proof.
  induction 1 as [| c v items vs Hc _ IH]; [reflexivity |].
  cbn [comprehension]. rewrite Hc, IH. reflexivity.
Qed.

Lemma comprehension_first_failure {A B} (f : A -> result B)
    (pre post : list A) (c : A) (e : exn) :
  Forall (fun x => exists v, f x = Ok v) pre ->
  f c = Raise e ->
  comprehension f (pre ++ c :: post) = Raise e.
Proof.
  induction 1 as [| x pre [v Hx] _ IH]; intros Hc; cbn [app comprehension].
  - rewrite Hc. reflexivity.
  - rewrite Hx, (IH Hc). reflexivity.
Qed.

Lemma generation_of_path (p v : json) :
  lookup_path ["generation"] p = Some v ->
  py_getitem p "generation" = Ok v.
Proof.
  destruct p as [| | | | | | d]; try discriminate.
  cbn [lookup_path py_getitem].
  destruct (dict_get "generation" d); [| discriminate].
  intros H; inversion H; reflexivity.
Qed.

(** X1: on a list in which every record has a [generation],
    [generations_of_population] returns these values, one per record and
    in the order of the records, and prints nothing. *)
Theorem generations_of_population_values (w : World) (items vs : list json)
    (out : stdout) :
  Forall2 (fun p v => lookup_path ["generation"] p = Some v) items vs ->
  generations_of_population w (JArr items) out = (Ok vs, out) /\
  length vs = length items.
Proof.
  intros Hall. split.
  - unfold generations_of_population, population_or_path, bind, ret, lift.
    cbn [py_iter rbind].
    rewrite (comprehension_Forall2 _ items vs); [reflexivity |].
    induction Hall as [| p v items vs Hp _ IH]; constructor;
      [apply generation_of_path; exact Hp | exact IH].
  - symmetry. apply (Forall2_length Hall).
Qed.

Lemma generations_of_population_values_witness :
  generations_of_population bare_world (JArr [creature_1; creature_2]) []
  = (Ok [JInt 1; JInt 2], []) /\
  length [JInt 1; JInt 2] = length [creature_1; creature_2].
Proof.
  apply (generations_of_population_values bare_world
           [creature_1; creature_2] [JInt 1; JInt 2] []).
  repeat constructor.
Defined.

(** X2: one record without a [generation] makes
    [generations_of_population] raise [KeyError] for the whole population,
    whatever the records before and after it hold; no partial list is
    returned. *)
Theorem generations_of_population_missing (w : World) (pre post : list json)
    (d : dict) (out : stdout) :
  Forall (fun p => exists v, lookup_path ["generation"] p = Some v) pre ->
  dict_get "generation" d = None ->
  generations_of_population w (JArr (pre ++ JObj d :: post)) out
  = (Raise (KeyError "generation"), out).
Proof.
  intros Hpre Hd.
  unfold generations_of_population, population_or_path, bind, ret, lift.
  cbn [py_iter rbind].
  rewrite (comprehension_first_failure _ pre post (JObj d)
             (KeyError "generation")); [reflexivity | |].
  - induction Hpre as [| p pre [v Hp] _ IH]; constructor; [| exact IH].
    exists v. apply generation_of_path. exact Hp.
  - cbn [py_getitem]. rewrite Hd. reflexivity.
Qed.

Lemma generations_of_population_missing_witness :
  generations_of_population bare_world
    (JArr ([creature_1] ++ JObj [("fitness", JObj [])] :: [creature_2])) []
  = (Raise (KeyError "generation"), []).
Proof.
  apply (generations_of_population_missing bare_world [creature_1] [creature_2]
           [("fitness", JObj [])] []).
  - repeat constructor. exists (JInt 1). reflexivity.
  - reflexivity.
Defined.

(** X3: given the path of a file that cannot be read, both population-level
    extractors print the loader's diagnostic and return the empty list, as
    they do (without the diagnostic) for an empty population. *)
Theorem population_of_unreadable_path (w : World) (path : string)
    (e : lib_error) (out : stdout) :
  gzip_json_load w path = inl e ->
  fitness_scores_of_population w (JStr path) out
  = (Ok [], out ++ [diagnostic path e]) /\
  generations_of_population w (JStr path) out
  = (Ok [], out ++ [diagnostic path e]) /\
  fitness_scores_of_population w (JArr []) out = (Ok [], out) /\
  generations_of_population w (JArr []) out = (Ok [], out).
Proof.
  intros Hfail.
  unfold fitness_scores_of_population, generations_of_population,
    population_or_path, load_population, bind, diagnostic.
  rewrite Hfail. repeat split.
Qed.

Lemma population_of_unreadable_path_witness :
  fitness_scores_of_population bare_world (JStr "pop/a.json.gz") []
  = (Ok [], [diagnostic "pop/a.json.gz" (no_such_file "pop/a.json.gz")]).
Proof.
  apply (proj1 (population_of_unreadable_path bare_world "pop/a.json.gz"
                  (no_such_file "pop/a.json.gz") [] eq_refl)).
Defined.

(** X4: the loader does not check the shape of what it parsed.  A file
    holding [null], a boolean or a number loads without a diagnostic, and
    then every consumer that iterates over it raises [TypeError]: both
    population-level extractors and [build_dataframe], whatever the
    extractors are. *)
Theorem scalar_document_raises (w : World) (path : string) (v : json)
    (out : stdout) :
  gzip_json_load w path = inr v ->
  is_scalar v = true ->
  load_population w path out = (Ok v, out) /\
  fitness_scores_of_population w (JStr path) out = (Raise TypeError, out) /\
  generations_of_population w (JStr path) out = (Raise TypeError, out) /\
  (forall c1_name c2_name f1 f2,
     build_dataframe w path c1_name c2_name f1 f2 out = (Raise TypeError, out)).
Proof.
  intros Hload Hv.
  unfold fitness_scores_of_population, generations_of_population,
    build_dataframe, population_or_path, load_population, bind, lift.
  rewrite Hload.
  destruct v; try discriminate; repeat split.
Qed.

Lemma scalar_document_raises_witness :
  build_dataframe null_file_world "pop/null.json.gz" "generation" "fitness"
    generation_of_creature fitness_of_creature []
  = (Raise TypeError, []).
Proof.
  apply (proj2 (proj2 (proj2 (scalar_document_raises null_file_world
           "pop/null.json.gz" JNull [] eq_refl eq_refl)))).
Defined.

Lemma fitnesses_of_first_failure (pre post : list json) (c : json) :
  forallb is_record pre = true ->
  py_in "fitness" c = Ok true ->
  (fitness <-? py_getitem c "fitness" ; py_in "cached_scalar" fitness)%result
  = Raise TypeError ->
  fitnesses_of (pre ++ c :: post) = Raise TypeError.
Proof.
  intros Hpre Hin Hguard.
  induction pre as [| p pre IH].
  - cbn [app fitnesses_of]. rewrite Hin. cbn [rbind].
    rewrite Hguard. reflexivity.
  - cbn [forallb] in Hpre. apply andb_prop in Hpre as [Hp Hpre].
    specialize (IH Hpre).
    cbn [app fitnesses_of].
    destruct p as [| | | | | | d]; try discriminate.
    unfold py_in, py_getitem, rbind. cbn [is_record] in Hp.
    destruct (dict_get "fitness" d) as [[| | | | | | fd] |]; try discriminate.
    + destruct (dict_get "cached_scalar" fd) as [v |].
      * fold (fitnesses_of (pre ++ c :: post)). rewrite IH. reflexivity.
      * exact IH.
    + exact IH.
Qed.

(** X5: a record whose [fitness] is [null], a boolean or a number is not
    covered by the guard of the fitness extractor: the membership test
    ['cached_scalar' in creature['fitness']] itself raises [TypeError].
    One such record anywhere in a population makes
    [fitness_scores_of_population] raise instead of skipping it. *)
Theorem scalar_fitness_raises (d : dict) (v : json) :
  dict_get "fitness" d = Some v ->
  is_scalar v = true ->
  fitness_of_creature (JObj d) = Raise TypeError /\
  (forall (w : World) (pre post : list json) (out : stdout),
     forallb is_record pre = true ->
     fitness_scores_of_population w (JArr (pre ++ JObj d :: post)) out
     = (Raise TypeError, out)).
Proof.
  intros Hd Hv.
  assert (Hin : py_in "fitness" (JObj d) = Ok true).
  { cbn [py_in]. rewrite Hd. reflexivity. }
  assert (Hguard :
    (fitness <-? py_getitem (JObj d) "fitness" ;
     py_in "cached_scalar" fitness)%result = Raise TypeError).
  { cbn [py_getitem]. rewrite Hd. destruct v; try discriminate; reflexivity. }
  split.
  - unfold fitness_of_creature. rewrite Hin. cbn [rbind].
    cbn [py_getitem]. rewrite Hd. cbn [rbind].
    destruct v; try discriminate; reflexivity.
  - intros w pre post out Hpre.
    unfold fitness_scores_of_population, population_or_path, bind, ret, lift.
    cbn [py_iter rbind].
    rewrite (fitnesses_of_first_failure pre post (JObj d) Hpre Hin Hguard).
    reflexivity.
Qed.

Lemma scalar_fitness_raises_witness :
  fitness_of_creature (JObj [("generation", JInt 3); ("fitness", JNull)])
  = Raise TypeError /\
  fitness_scores_of_population bare_world
    (JArr ([creature_1] ++
           JObj [("generation", JInt 3); ("fitness", JNull)] :: [creature_2])) []
  = (Raise TypeError, []).
Proof.
  pose proof (scalar_fitness_raises
                [("generation", JInt 3); ("fitness", JNull)] JNull
                eq_refl eq_refl) as [Hone Hall].
  split; [exact Hone |].
  apply (Hall bare_world [creature_1] [creature_2] []). reflexivity.
Defined.

(** ** Failures while a table is assembled *)

Lemma build_dataframe_split (w : World) (path c1_name c2_name : string)
    (f1 f2 : json -> result json) (out : stdout) :
  build_dataframe w path c1_name c2_name f1 f2 out
  = (build_result w path c1_name c2_name f1 f2, out ++ load_log w path).
Proof.
  unfold build_result, build_dataframe, bind, lift.
  rewrite !load_population_run.
  destruct (py_iter (loaded w path)) as [items |]; cbn [rbind fst];
    [| reflexivity].
  destruct (comprehension f1 items); [| reflexivity].
  destruct (comprehension f2 items); [| reflexivity].
  destruct (pd_DataFrame _); reflexivity.
Qed.

Lemma in_generator_raise {A} (m : M A) (out out' : stdout) (e : exn) :
  m out = (Raise e, out') ->
  in_generator m out = (Raise (generator_exn e), out').
Proof.
  intros H. unfold in_generator. rewrite H. destruct e; reflexivity.
Qed.

(** X6: [build_dataframe] computes the whole first column before it
    starts the second.  When the first extractor raises on some creature,
    that exception leaves [build_dataframe], even if the second extractor
    would fail on an earlier creature; the second extractor's exception is
    seen only when the first one returns on every creature.  What the
    loader printed stays printed. *)
Theorem build_dataframe_first_failure (w : World)
    (path c1_name c2_name : string) (f1 f2 : json -> result json)
    (pre post : list json) (c : json) (e : exn) (out : stdout) :
  py_iter (loaded w path) = Ok (pre ++ c :: post) ->
  (Forall (returns f1) pre -> f1 c = Raise e ->
   build_dataframe w path c1_name c2_name f1 f2 out
   = (Raise e, out ++ load_log w path)) /\
  (Forall (returns f1) (pre ++ c :: post) ->
   Forall (returns f2) pre -> f2 c = Raise e ->
   build_dataframe w path c1_name c2_name f1 f2 out
   = (Raise e, out ++ load_log w path)).
Proof.
  intros Hiter. split.
  - intros Hpre Hc.
    unfold build_dataframe, bind, lift.
    rewrite load_population_run, Hiter. cbn [rbind].
    rewrite (comprehension_first_failure f1 pre post c e Hpre Hc).
    reflexivity.
  - intros Hall Hpre Hc.
    unfold build_dataframe, bind, lift.
    rewrite load_population_run, Hiter. cbn [rbind].
    assert (H1 : exists vs, comprehension f1 (pre ++ c :: post) = Ok vs).
    { clear - Hall. induction Hall as [| x xs [v Hx] _ [vs IH]].
      - eexists; reflexivity.
      - cbn [comprehension]. rewrite Hx, IH. eexists; reflexivity. }
    destruct H1 as [vs Hvs]. rewrite Hvs.
    rewrite (comprehension_first_failure f2 pre post c e Hpre Hc).
    reflexivity.
Qed.

Lemma build_dataframe_first_failure_witness :
  build_dataframe two_file_world "pop/b.json.gz" "coverage" "fitness"
    code_coverage_of_creature exhausted []
  = (Raise (KeyError "fitness"), []).
Proof.
  apply (proj1 (build_dataframe_first_failure two_file_world "pop/b.json.gz"
                  "coverage" "fitness" code_coverage_of_creature exhausted
                  [] [] creature_2 (KeyError "fitness") [] eq_refl)).
  - constructor.
  - reflexivity.
Defined.

Section Failures.

Variable w : World.
Variables c1_name c2_name : string.
Variables f1 f2 : json -> result json.
Variables g1 g2 : json -> json.

Local Abbreviation extracted := (extracts f1 f2 g1 g2).
Local Abbreviation some_table :=
  (assembled (fun _ _ => True) c1_name c2_name g1 g2).
Local Abbreviation build :=
  (fun path => build_dataframe w path c1_name c2_name f1 f2).

Lemma build_failure_run (path : string) (e : exn) (out : stdout) :
  build_result w path c1_name c2_name f1 f2 = Raise e ->
  in_generator (build path) out
  = (Raise (generator_exn e), out ++ load_log w path).
Proof.
  intros Hfail. apply in_generator_raise.
  rewrite build_dataframe_split, Hfail. reflexivity.
Qed.

Lemma reduce_from_failure (pre : list string) (pops : list (list json))
    (path : string) (post : list string) (e : exn) :
  Forall2 (fun p cs => py_iter (loaded w p) = Ok cs) pre pops ->
  build_result w path c1_name c2_name f1 f2 = Raise e ->
  forall (acc_cs : list json) (acc : DataFrame) (out : stdout),
    some_table acc_cs acc ->
    extracted (concat pops) ->
    reduce_from (DataFrame_append w) build acc (pre ++ path :: post) out
    = (Raise (generator_exn e),
       out ++ flat_map (load_log w) pre ++ load_log w path).
Proof.
  intros Hpre Hfail.
  induction Hpre as [| p cs pre pops Hiter _ IH]; intros acc_cs acc out Hacc Hex.
  - cbn [app reduce_from flat_map]. unfold bind.
    rewrite (build_failure_run path e out Hfail). reflexivity.
  - cbn [concat] in Hex.
    apply extracts_app in Hex as [Hcs Hrest].
    destruct (build_dataframe_run w c1_name c2_name f1 f2 g1 g2 _
                (any_cell_kept w) p cs out Hiter Hcs) as (t & Hrun & Ht).
    cbn [app reduce_from]. unfold bind.
    rewrite (in_generator_ok _ _ _ _ Hrun).
    rewrite (IH (acc_cs ++ cs) _ (out ++ load_log w p)
               (assembled_append w c1_name c2_name g1 g2 _ (any_cell_kept w)
                  _ _ _ _ Hacc Ht) Hrest).
    cbn [flat_map]. rewrite <- !app_assoc. reflexivity.
Qed.

Lemma reduce_gen_failure (pre : list string) (pops : list (list json))
    (path : string) (post : list string) (e : exn) (out : stdout) :
  Forall2 (fun p cs => py_iter (loaded w p) = Ok cs) pre pops ->
  build_result w path c1_name c2_name f1 f2 = Raise e ->
  extracted (concat pops) ->
  reduce_gen (DataFrame_append w) build (pre ++ path :: post) out
  = (Raise (generator_exn e),
     out ++ flat_map (load_log w) pre ++ load_log w path).
Proof.
  intros Hpre Hfail Hex.
  destruct Hpre as [| p cs pre pops Hiter Hpre].
  - cbn [app reduce_gen flat_map]. unfold bind.
    rewrite (build_failure_run path e out Hfail). reflexivity.
  - cbn [concat] in Hex.
    apply extracts_app in Hex as [Hcs Hrest].
    destruct (build_dataframe_run w c1_name c2_name f1 f2 g1 g2 _
                (any_cell_kept w) p cs out Hiter Hcs) as (t & Hrun & Ht).
    cbn [app reduce_gen]. unfold bind.
    rewrite (in_generator_ok _ _ _ _ Hrun).
    rewrite (reduce_from_failure pre pops path post e Hpre Hfail cs t _ Ht Hrest).
    cbn [flat_map]. rewrite <- !app_assoc. reflexivity.
Qed.

Lemma dataframe_for_dir_failure (directory : string)
    (pre_names post_names : list string) (name : string)
    (pops : list (list json)) (e : exn) (out : stdout) :
  os_walk_files w directory = Some (pre_names ++ name :: post_names) ->
  Forall2 (fun p cs => py_iter (loaded w p) = Ok cs)
          (dir_paths directory pre_names) pops ->
  extracted (concat pops) ->
  build_result w (os_path_join directory name) c1_name c2_name f1 f2 = Raise e ->
  dataframe_for_dir w directory c1_name c2_name f1 f2 out
  = (Raise (generator_exn e),
     out ++ PList (dir_paths directory (pre_names ++ name :: post_names))
         :: flat_map (load_log w) (dir_paths directory pre_names)
         ++ load_log w (os_path_join directory name)).
Proof.
  intros Hwalk Hpre Hex Hfail.
  unfold dataframe_for_dir, files, bind. rewrite Hwalk.
  unfold print, ret, dir_paths in *.
  rewrite map_app. cbn [map].
  rewrite (reduce_gen_failure _ pops _ _ e _ Hpre Hfail Hex).
  rewrite <- app_assoc. reflexivity.
Qed.

End Failures.

(** X7: [dataframe_for_dir] builds the per-file tables one at a time.
    When the table of one file cannot be built, the exception leaves
    [dataframe_for_dir] (a [StopIteration] as [RuntimeError], since it
    crosses a generator), the tables built so far are lost, and the files
    listed after the failing one are never opened: the output holds the
    listing and the diagnostics of the files up to the failing one only. *)
Theorem dataframe_for_dir_stops_at_failure (w : World)
    (directory c1_name c2_name : string) (f1 f2 : json -> result json)
    (g1 g2 : json -> json) (pre_names post_names : list string)
    (name : string) (pops : list (list json)) (e : exn) (out : stdout) :
  os_walk_files w directory = Some (pre_names ++ name :: post_names) ->
  Forall2 (fun p cs => py_iter (loaded w p) = Ok cs)
          (dir_paths directory pre_names) pops ->
  extracts f1 f2 g1 g2 (concat pops) ->
  build_result w (os_path_join directory name) c1_name c2_name f1 f2 = Raise e ->
  dataframe_for_dir w directory c1_name c2_name f1 f2 out
  = (Raise (generator_exn e),
     out ++ PList (dir_paths directory (pre_names ++ name :: post_names))
         :: flat_map (load_log w) (dir_paths directory pre_names)
         ++ load_log w (os_path_join directory name)).
Proof.
  intros Hwalk Hpre Hex Hfail.
  exact (dataframe_for_dir_failure w c1_name c2_name f1 f2 g1 g2 directory
           pre_names post_names name pops e out Hwalk Hpre Hex Hfail).
Qed.

Lemma dataframe_for_dir_stops_at_failure_witness :
  dataframe_for_dir three_dir_world "pop" "generation" "fitness"
    generation_of_creature fitness_of_creature []
  = (Raise (KeyError "generation"),
     [PList ["pop/a.json.gz"; "pop/m.json.gz"; "pop/b.json.gz"]]).
Proof.
  apply (dataframe_for_dir_stops_at_failure three_dir_world "pop"
           "generation" "fitness" generation_of_creature fitness_of_creature
           (or_none generation_of_creature) (or_none fitness_of_creature)
           ["a.json.gz"] ["b.json.gz"] "m.json.gz" [[creature_1]]
           (KeyError "generation") []).
  - reflexivity.
  - repeat constructor.
  - intros c [<- | []]; split; reflexivity.
  - reflexivity.
Defined.

(** ** Unreadable files, missing and empty directories *)

Lemma concat_map_nil {A B} (xs : list A) :
  concat (map (fun _ => @nil B) xs) = [].
Proof. induction xs as [| x xs IH]; [reflexivity | exact IH]. Qed.

Lemma flat_map_diagnostics (w : World) (paths : list string) :
  (forall p, In p paths -> exists e, gzip_json_load w p = inl e) ->
  length (flat_map (load_log w) paths) = length paths /\
  Forall2 (fun p line => exists e, gzip_json_load w p = inl e /\
                                   line = diagnostic p e)
          paths (flat_map (load_log w) paths).
Proof.
  induction paths as [| p paths IH]; intros Hall.
  - split; [reflexivity | constructor].
  - destruct (Hall p (or_introl eq_refl)) as [e He].
    destruct IH as [IHlen IHall].
    { intros q Hq. apply Hall. right. exact Hq. }
    cbn [flat_map]. unfold load_log at 1 3. rewrite He. cbn [app length].
    split; [f_equal; exact IHlen |].
    constructor; [exists e; split; [exact He | reflexivity] | exact IHall].
Qed.

(** X8: a directory that lists at least one file, none of which can be
    read, does not fail: [dataframe_for_dir] returns the table with the
    column names and no row, whatever the extractors are (they are never
    called), after printing the listing and one diagnostic per file, in
    listing order.  Only a directory that lists no file at all raises. *)
Theorem dataframe_for_dir_unreadable_files (w : World)
    (directory c1_name c2_name : string) (f1 f2 : json -> result json)
    (names : list string) (out : stdout) :
  os_walk_files w directory = Some names ->
  names <> [] ->
  (forall p, In p (dir_paths directory names) ->
             exists e, gzip_json_load w p = inl e) ->
  exists lines,
    dataframe_for_dir w directory c1_name c2_name f1 f2 out
    = (Ok (table2 c1_name c2_name [] []),
       out ++ PList (dir_paths directory names) :: lines) /\
    df_nrows (table2 c1_name c2_name [] []) = 0 /\
    Forall2 (fun p line => exists e, gzip_json_load w p = inl e /\
                                     line = diagnostic p e)
            (dir_paths directory names) lines.
Proof.
  intros Hwalk Hne Hall.
  exists (flat_map (load_log w) (dir_paths directory names)).
  assert (Hload : Forall2 (fun path cs => py_iter (loaded w path) = Ok cs)
                    (dir_paths directory names)
                    (map (fun _ => []) names)).
  { clear Hwalk Hne. unfold dir_paths in *.
    induction names as [| name names IH]; constructor.
    - unfold loaded.
      destruct (Hall _ (or_introl eq_refl)) as [e He]. rewrite He.
      reflexivity.
    - apply IH. intros p Hp. apply Hall. right. exact Hp. }
  destruct (dataframe_for_dir_run w c1_name c2_name f1 f2
              (or_none f1) (or_none f2) _ (any_cell_kept w) directory names
              (map (fun _ => []) names) out Hwalk Hne Hload)
    as (df & Hrun & col1 & col2 & Hdf & H1 & H2).
  { rewrite concat_map_nil. intros c []. }
  rewrite concat_map_nil in H1, H2. inversion H1; inversion H2; subst.
  split; [exact Hrun |]. split.
  - unfold table2. cbn [data_set].
    destruct (String.eqb c2_name c1_name); reflexivity.
  - apply (flat_map_diagnostics w _ Hall).
Qed.

Lemma dataframe_for_dir_unreadable_files_witness :
  exists lines,
    dataframe_for_dir unreadable_world "pop" "generation" "fitness"
      exhausted exhausted []
    = (Ok (table2 "generation" "fitness" [] []),
       [] ++ PList (dir_paths "pop" ["x.json.gz"; "y.json.gz"]) :: lines) /\
    df_nrows (table2 "generation" "fitness" [] []) = 0 /\
    Forall2 (fun p line =>
               exists e, gzip_json_load unreadable_world p = inl e /\
                         line = diagnostic p e)
            (dir_paths "pop" ["x.json.gz"; "y.json.gz"]) lines.
Proof.
  apply (dataframe_for_dir_unreadable_files unreadable_world "pop"
           "generation" "fitness" exhausted exhausted
           ["x.json.gz"; "y.json.gz"] []).
  - reflexivity.
  - discriminate.
  - intros p _. eexists. reflexivity.
Defined.

Lemma comprehensionM_first_failure {A B} (f : A -> M B) (pre post : list A)
    (x : A) (vs : list B) (e : exn) (o o1 o2 : stdout) :
  comprehensionM f pre o = (Ok vs, o1) ->
  f x o1 = (Raise e, o2) ->
  comprehensionM f (pre ++ x :: post) o = (Raise e, o2).
Proof.
  revert vs o. induction pre as [| a pre IH]; intros vs o Hpre Hx.
  - cbn in Hpre. inversion Hpre; subst.
    cbn [app comprehensionM]. unfold bind. rewrite Hx. reflexivity.
  - cbn [app comprehensionM] in *. unfold bind in *.
    destruct (f a o) as [[v | e'] o'] eqn:Ha; [| discriminate].
    destruct (comprehensionM f pre o') as [[vs' | e'] o''] eqn:Hrest;
      [| discriminate].
    cbn in Hpre. inversion Hpre; subst.
    rewrite (IH vs' o' Hrest Hx). reflexivity.
Qed.

(** X9: a directory that cannot be scanned makes [dataframe_for_dir] raise
    [StopIteration] before anything is printed or loaded.  In
    [dataframe_for_dirs], the first directory that cannot be scanned
    ([StopIteration]) or lists no file ([TypeError]) ends the call with its
    exception, after the directories before it have been assembled; the
    directories after it need not even exist. *)
Theorem dataframe_for_dirs_failing_directory (w : World)
    (c1_name c2_name : string) (f1 f2 : json -> result json)
    (g1 g2 : json -> json) (pre post : list string)
    (contents : list (list (list json))) (d : string) (out : stdout) :
  Forall2 (dir_loads w) pre contents ->
  extracts f1 f2 g1 g2 (concat (concat contents)) ->
  (os_walk_files w d = None ->
   dataframe_for_dir w d c1_name c2_name f1 f2 out = (Raise StopIteration, out) /\
   exists out',
     dataframe_for_dirs w (pre ++ d :: post) c1_name c2_name f1 f2 out
     = (Raise StopIteration, out')) /\
  (os_walk_files w d = Some [] ->
   exists out',
     dataframe_for_dirs w (pre ++ d :: post) c1_name c2_name f1 f2 out
     = (Raise TypeError, out')).
Proof.
  intros Hpre Hex.
  destruct (comprehensionM_dirs w c1_name c2_name f1 f2 g1 g2 _
              (any_cell_kept w) pre contents Hpre Hex
              (out ++ [PList (pre ++ d :: post)]))
    as (tables & o1 & Hrun & _).
  split.
  - intros Hwalk.
    assert (Hd : forall o,
      dataframe_for_dir w d c1_name c2_name f1 f2 o = (Raise StopIteration, o)).
    { intros o. unfold dataframe_for_dir, files, bind. rewrite Hwalk.
      reflexivity. }
    split; [apply Hd |].
    exists o1. unfold dataframe_for_dirs, bind, print.
    rewrite (comprehensionM_first_failure _ pre post d _ StopIteration
               _ o1 o1 Hrun (Hd o1)).
    reflexivity.
  - intros Hwalk.
    exists (o1 ++ [PList []]). unfold dataframe_for_dirs, bind, print.
    rewrite (comprehensionM_first_failure _ pre post d _ TypeError
               _ o1 (o1 ++ [PList []]) Hrun); [reflexivity |].
    unfold dataframe_for_dir, files, bind. rewrite Hwalk. reflexivity.
Qed.

Lemma three_dir_world_ok_loads :
  dir_loads three_dir_world "ok" [[creature_2]].
Proof.
  exists ["c.json.gz"].
  split; [reflexivity |]. split; [discriminate |].
  repeat constructor.
Defined.

Lemma dataframe_for_dirs_failing_directory_witness :
  (exists out',
     dataframe_for_dirs three_dir_world (["ok"] ++ "gone" :: ["pop"])
       "generation" "fitness" generation_of_creature fitness_of_creature []
     = (Raise StopIteration, out')) /\
  (exists out',
     dataframe_for_dirs three_dir_world (["ok"] ++ "void" :: ["pop"])
       "generation" "fitness" generation_of_creature fitness_of_creature []
     = (Raise TypeError, out')).
Proof.
  assert (Hpre : Forall2 (dir_loads three_dir_world) ["ok"] [[[creature_2]]]).
  { constructor; [exact three_dir_world_ok_loads | constructor]. }
  assert (Hex : extracts generation_of_creature fitness_of_creature
                  (or_none generation_of_creature) (or_none fitness_of_creature)
                  (concat (concat [[[creature_2]]]))).
  { intros c [<- | []]; split; reflexivity. }
  split.
  - apply (proj1 (dataframe_for_dirs_failing_directory three_dir_world
                    "generation" "fitness" generation_of_creature
                    fitness_of_creature (or_none generation_of_creature)
                    (or_none fitness_of_creature) ["ok"] ["pop"]
                    [[[creature_2]]] "gone" [] Hpre Hex)).
    reflexivity.
  - apply (proj2 (dataframe_for_dirs_failing_directory three_dir_world
                    "generation" "fitness" generation_of_creature
                    fitness_of_creature (or_none generation_of_creature)
                    (or_none fitness_of_creature) ["ok"] ["pop"]
                    [[[creature_2]]] "void" [] Hpre Hex)).
    reflexivity.
Defined.

(** ** How the assemblers compose *)

(** X10: for a single directory, [dataframe_for_dirs] is
    [dataframe_for_dir] after printing the one-element list: the same
    table or the same exception, and the same output after that line. *)
Theorem dataframe_for_dirs_single (w : World) (d c1_name c2_name : string)
    (f1 f2 : json -> result json) (out : stdout) :
  dataframe_for_dirs w [d] c1_name c2_name f1 f2 out
  = dataframe_for_dir w d c1_name c2_name f1 f2 (out ++ [PList [d]]).
Proof.
  unfold dataframe_for_dirs, bind, print. cbn [comprehensionM]. unfold bind.
  destruct (dataframe_for_dir w d c1_name c2_name f1 f2 (out ++ [PList [d]]))
    as [[table | e] out']; reflexivity.
Qed.

(** X11: the table of a list of directories followed by another has as
    many rows as the tables of the two lists together, and its rows are
    those of the creatures of the first list followed by those of the
    creatures of the second, each value as pandas stores it.  Nothing is
    merged or removed; a directory listed in both contributes its rows
    twice. *)
Theorem dataframe_for_dirs_app (w : World) (c1_name c2_name : string)
    (f1 f2 : json -> result json) (g1 g2 : json -> json)
    (dirs1 dirs2 : list string) (contents1 contents2 : list (list (list json)))
    (out : stdout) :
  dirs1 <> [] -> dirs2 <> [] ->
  Forall2 (dir_loads w) dirs1 contents1 ->
  Forall2 (dir_loads w) dirs2 contents2 ->
  extracts f1 f2 g1 g2 (concat (concat (contents1 ++ contents2))) ->
  exists t1 t2 t o1 o2 o,
    dataframe_for_dirs w dirs1 c1_name c2_name f1 f2 out = (Ok t1, o1) /\
    dataframe_for_dirs w dirs2 c1_name c2_name f1 f2 out = (Ok t2, o2) /\
    dataframe_for_dirs w (dirs1 ++ dirs2) c1_name c2_name f1 f2 out = (Ok t, o) /\
    df_nrows t = df_nrows t1 + df_nrows t2 /\
    length (df_rows t) = length (df_rows t1) + length (df_rows t2) /\
    (pandas_coerces w ->
     Forall2 (fun c row =>
                row_holds (row_cells c1_name c2_name (g1 c) (g2 c)) row)
             (concat (concat contents1) ++ concat (concat contents2))
             (df_rows t)).
Proof.
  intros Hne1 Hne2 Hl1 Hl2 Hex.
  assert (Hex' := Hex).
  rewrite !concat_app in Hex'.
  apply extracts_app in Hex' as [Hex1 Hex2].
  assert (Hne : dirs1 ++ dirs2 <> []).
  { destruct dirs1; [congruence | discriminate]. }
  destruct (dataframe_for_dirs_run w c1_name c2_name f1 f2 g1 g2 _
              (any_cell_kept w) dirs1 contents1 out Hne1 Hl1 Hex1)
    as (t1 & o1 & H1 & Ht1).
  destruct (dataframe_for_dirs_run w c1_name c2_name f1 f2 g1 g2 _
              (any_cell_kept w) dirs2 contents2 out Hne2 Hl2 Hex2)
    as (t2 & o2 & H2 & Ht2).
  destruct (dataframe_for_dirs_run w c1_name c2_name f1 f2 g1 g2 _
              (any_cell_kept w) (dirs1 ++ dirs2) (contents1 ++ contents2) out
              Hne (Forall2_app Hl1 Hl2) Hex) as (t & o & H & Ht).
  exists t1, t2, t, o1, o2, o.
  split; [exact H1 |]. split; [exact H2 |]. split; [exact H |].
  split; [| split].
  - rewrite (assembled_nrows _ _ _ _ _ _ _ Ht1),
      (assembled_nrows _ _ _ _ _ _ _ Ht2), (assembled_nrows _ _ _ _ _ _ _ Ht).
    rewrite !concat_app. apply length_app.
  - rewrite <- (Forall2_length (assembled_rows _ _ _ _ _ _ _ Ht1)),
      <- (Forall2_length (assembled_rows _ _ _ _ _ _ _ Ht2)),
      <- (Forall2_length (assembled_rows _ _ _ _ _ _ _ Ht)).
    rewrite !concat_app. apply length_app.
  - intros Hpd.
    destruct (dataframe_for_dirs_run w c1_name c2_name f1 f2 g1 g2 _
                (stored_as_kept w Hpd) (dirs1 ++ dirs2)
                (contents1 ++ contents2) out Hne (Forall2_app Hl1 Hl2) Hex)
      as (t' & o' & H' & Ht').
    rewrite (run_table_unique _ _ _ _ _ H H').
    rewrite <- !concat_app.
    apply (assembled_rows _ _ _ _ _ _ _ Ht').
Qed.

Lemma dataframe_for_dirs_app_witness :
  exists t1 t2 t o1 o2 o,
    dataframe_for_dirs two_file_world ["pop"] "generation" "fitness"
      generation_of_creature fitness_of_creature [] = (Ok t1, o1) /\
    dataframe_for_dirs two_file_world ["pop"] "generation" "fitness"
      generation_of_creature fitness_of_creature [] = (Ok t2, o2) /\
    dataframe_for_dirs two_file_world (["pop"] ++ ["pop"]) "generation" "fitness"
      generation_of_creature fitness_of_creature [] = (Ok t, o) /\
    df_nrows t = df_nrows t1 + df_nrows t2 /\
    length (df_rows t) = length (df_rows t1) + length (df_rows t2) /\
    (pandas_coerces two_file_world ->
     Forall2 (fun c row =>
                row_holds (row_cells "generation" "fitness"
                             (or_none generation_of_creature c)
                             (or_none fitness_of_creature c)) row)
             (concat (concat [[[creature_1]; [creature_2]]]) ++
              concat (concat [[[creature_1]; [creature_2]]]))
             (df_rows t)).
Proof.
  assert (Hl : Forall2 (dir_loads two_file_world) ["pop"]
                 [[[creature_1]; [creature_2]]]).
  { constructor; [exact two_file_world_pop_loads | constructor]. }
  apply (dataframe_for_dirs_app two_file_world "generation" "fitness"
           generation_of_creature fitness_of_creature
           (or_none generation_of_creature) (or_none fitness_of_creature)
           ["pop"] ["pop"] [[[creature_1]; [creature_2]]]
           [[[creature_1]; [creature_2]]] []).
  - discriminate.
  - discriminate.
  - exact Hl.
  - exact Hl.
  - intros c [<- | [<- | [<- | [<- | []]]]]; split; reflexivity.
Defined.

(** X12: when one name is given for both columns, the dict of columns
    keeps one entry, so the assembled table has a single column, with one
    cell per creature, and it holds the values of the second extractor,
    each as pandas stores it; the values of the first are computed and
    dropped. *)
Theorem dataframe_for_dir_one_name (w : World) (directory c_name : string)
    (f1 f2 : json -> result json) (g1 g2 : json -> json)
    (pops : list (list json)) (out : stdout) :
  dir_loads w directory pops ->
  extracts f1 f2 g1 g2 (concat pops) ->
  exists col out',
    dataframe_for_dir w directory c_name c_name f1 f2 out
    = (Ok [(c_name, col)], out') /\
    length col = length (concat pops) /\
    (pandas_coerces w -> Forall2 stored_as (map g2 (concat pops)) col).
Proof.
  intros (names & Hwalk & Hne & Hload) Hex.
  destruct (dataframe_for_dir_run w c_name c_name f1 f2 g1 g2 _
              (any_cell_kept w) directory names pops out Hwalk Hne Hload Hex)
    as (df & Hrun & col1 & col2 & -> & _ & H2).
  rewrite table2_same in Hrun.
  exists col2, (out ++ dir_log w directory names).
  split; [exact Hrun |]. split.
  - apply Forall2_length in H2. rewrite length_map in H2. congruence.
  - intros Hpd.
    destruct (dataframe_for_dir_run w c_name c_name f1 f2 g1 g2 _
                (stored_as_kept w Hpd) directory names pops out
                Hwalk Hne Hload Hex)
      as (df' & Hrun' & col1' & col2' & -> & _ & H2').
    rewrite table2_same in Hrun'.
    pose proof (run_table_unique _ _ _ _ _ Hrun Hrun') as E.
    inversion E; subst. exact H2'.
Qed.

Lemma dataframe_for_dir_one_name_witness :
  exists col out',
    dataframe_for_dir two_file_world "pop" "x" "x"
      generation_of_creature fitness_of_creature []
    = (Ok [("x", col)], out') /\
    length col = length (concat [[creature_1]; [creature_2]]) /\
    (pandas_coerces two_file_world ->
     Forall2 stored_as
       (map (or_none fitness_of_creature) (concat [[creature_1]; [creature_2]]))
       col).
Proof.
  apply (dataframe_for_dir_one_name two_file_world "pop" "x"
           generation_of_creature fitness_of_creature
           (or_none generation_of_creature) (or_none fitness_of_creature)
           [[creature_1]; [creature_2]] []).
  - exact two_file_world_pop_loads.
  - intros c [<- | [<- | []]]; split; reflexivity.
Defined.

(** ** Plotting entry points *)

(** X13: [pleasures_for_population] and [plot_fitness_by_generation] reach
    the unbound name [glob] before any table is assembled, so they raise
    [NameError] on every input: whatever the plotting libraries do, they
    are never called, and nothing is printed. *)
Theorem plotting_entry_points_raise (w : World) (Fig Axes : Type)
    (sns_jointplot : string -> string -> DataFrame -> M unit)
    (joypy_joyplot : DataFrame -> string -> string -> string -> M (Fig * Axes))
    (out : stdout) :
  (forall pop_name col_1_name col_2_name col_1_func col_2_func title,
     pleasures_for_population w Fig Axes joypy_joyplot pop_name
       col_1_name col_2_name col_1_func col_2_func title out
     = (Raise (NameError "glob"), out)) /\
  (forall pop_name island,
     plot_fitness_by_generation w sns_jointplot pop_name island out
     = (Raise (NameError "glob"), out)).
Proof.
  split.
  - reflexivity.
  - intros pop_name [island |]; reflexivity.
Qed.
